(** * socketplane: the OVS bridge attachment orchestrator (ovs/bridge.go)

    A shallow embedding of [ovs/bridge.go] and a verification of the
    properties its design document states about it.

    - [GoNet] models the fragment of Go's [net] package the file calls
      (go1.4 sources: [ParseCIDR], [IP.To4], [IP.Mask], [CIDRMask],
      [IP.String], [IPNet.String], [HardwareAddr.String]).  IPv4 is
      modelled to the byte; the two IPv6 routines ([parseIPv6] and the
      IPv6 branch of [IP.String]) are Section variables.
    - [Eff] is the effect layer: every call that leaves [bridge.go]
      (kernel, switch control plane, allocator, iptables, clock, random
      source) is a [Call] node of a program tree, answered by an arbitrary
      stateful handler; a run records the calls and their replies.
    - [Ovs] is [bridge.go] itself, function by function, with the two
      package-level variables [OvsBridge] and [ovs] threaded as state.
    - [Host] is a small simulated host, used to run the programs on
      concrete inputs.

    The properties follow: printing and parsing of IPv4 networks, gateway
    selection, hardware addresses, peer tunnels, connections, the bridge. *)

From Stdlib Require Import ZArith List String Ascii Bool Lia.
Import ListNotations.

Local Open Scope string_scope.
Local Open Scope Z_scope.
Local Open Scope list_scope.

Infix "+++" := String.append (right associativity, at level 60).

(* ================================================================== *)
(** * Go's [net] package (the part bridge.go uses)                     *)
(* ================================================================== *)

Module GoNet.

(** A Go [byte] is carried by a [Z]; [[]byte] by a list.  The nil slice
    and the empty slice are both [[]] (the code only takes [len] of them
    and copies from them). *)
Definition IP := list Z.
Definition IPMask := list Z.
Definition HardwareAddr := list Z.

Record IPNet : Type := mkIPNet { net_IP : IP; net_Mask : IPMask }.

Definition IPv4len : Z := 4.
Definition IPv6len : Z := 16.

Definition len {A} (l : list A) : Z := Z.of_nat (List.length l).
Definition slen (s : string) : Z := Z.of_nat (String.length s).

Definition v4InV6Prefix : list Z := [0;0;0;0;0;0;0;0;0;0;255;255].

(** [func IPv4(a, b, c, d byte) IP]: the 16-byte form. *)
Definition IPv4 (a b c d : Z) : IP := v4InV6Prefix ++ [a; b; c; d].

Definition bytesEqual (x y : list Z) : bool :=
  if list_eq_dec Z.eq_dec x y then true else false.

Definition isZeros (p : IP) : bool := forallb (Z.eqb 0) p.

(** [func (ip IP) To4() IP]; nil is [[]]. *)
Definition To4 (ip : IP) : IP :=
  if len ip =? IPv4len then ip
  else if (len ip =? IPv6len)
          && isZeros (firstn 10 ip)
          && (nth 10 ip 0 =? 255)
          && (nth 11 ip 0 =? 255)
       then skipn 12 ip
       else [].

(** [func CIDRMask(ones, bits int) IPMask] *)
Fixpoint CIDRMask_fill (l : nat) (n : Z) : IPMask :=
  match l with
  | O => []
  | S l' =>
      if 8 <=? n then 255 :: CIDRMask_fill l' (n - 8)
      else Z.lxor 255 (Z.shiftr 255 n) :: CIDRMask_fill l' 0
  end.

Definition CIDRMask (ones bits : Z) : IPMask :=
  if negb (bits =? 8 * IPv4len) && negb (bits =? 8 * IPv6len) then []
  else if (ones <? 0) || (bits <? ones) then []
  else CIDRMask_fill (Z.to_nat (bits / 8)) ones.

Definition allFF (b : list Z) : bool := forallb (Z.eqb 255) b.

Fixpoint and_bytes (ip mask : list Z) : list Z :=
  match ip, mask with
  | a :: ip', m :: mask' => Z.land a m :: and_bytes ip' mask'
  | _, _ => []
  end.

(** [func (ip IP) Mask(mask IPMask) IP] *)
Definition Mask (ip : IP) (mask : IPMask) : IP :=
  let mask :=
    if (len mask =? IPv6len) && (len ip =? IPv4len) && allFF (firstn 12 mask)
    then skipn 12 mask else mask in
  let ip :=
    if (len mask =? IPv4len) && (len ip =? IPv6len)
       && bytesEqual (firstn 12 ip) v4InV6Prefix
    then skipn 12 ip else ip in
  if negb (len ip =? len mask) then [] else and_bytes ip mask.

(** ** Decimal and hexadecimal text *)

Definition isDigit (c : ascii) : bool :=
  (48 <=? Z.of_nat (nat_of_ascii c)) && (Z.of_nat (nat_of_ascii c) <=? 57).

Definition digitVal (c : ascii) : Z := Z.of_nat (nat_of_ascii c) - 48.

Definition big : Z := 16777215. (* 0xFFFFFF *)

(** [func dtoi(s string, i0 int) (n int, i int, ok bool)].  The string is
    consumed from the front: the model returns the unread suffix [s[i:]] in
    place of the index [i]; [seen] records [i != i0]. *)
Fixpoint dtoi_from (s : string) (n : Z) (seen : bool) : Z * string * bool :=
  match s with
  | String c s' =>
      if isDigit c then
        let n' := n * 10 + digitVal c in
        if big <=? n' then (0, s, false) else dtoi_from s' n' true
      else if seen then (n, s, true) else (0, s, false)
  | EmptyString => if seen then (n, s, true) else (0, s, false)
  end.

Definition dtoi (s : string) : Z * string * bool := dtoi_from s 0 false.

(** [func itod(i uint) string]: the digits are produced last first into a
    32-byte buffer, which bounds the loop. *)
Fixpoint itod_loop (fuel : nat) (i : Z) (acc : string) : string :=
  match fuel with
  | O => acc
  | S fuel' =>
      if 0 <? i
      then itod_loop fuel' (i / 10)
             (String (ascii_of_nat (Z.to_nat (i mod 10 + 48))) acc)
      else acc
  end.

Definition itod (i : Z) : string :=
  if i =? 0 then "0" else itod_loop 32 i "".

Definition hexDigit : string := "0123456789abcdef".

Definition hexChar (v : Z) : ascii :=
  match String.get (Z.to_nat v) hexDigit with
  | Some c => c
  | None => "?"%char
  end.

(** Two lowercase hex digits of one byte: [hexDigit[b>>4]], [hexDigit[b&0xF]]. *)
Definition hexByte (b : Z) (rest : string) : string :=
  String (hexChar (Z.shiftr b 4)) (String (hexChar (Z.land b 15)) rest).

(** [encoding/hex.EncodeToString] *)
Fixpoint EncodeToString (src : list Z) : string :=
  match src with
  | [] => ""
  | b :: src' => hexByte b (EncodeToString src')
  end.

(** [func (a HardwareAddr) String() string] *)
Fixpoint HardwareAddr_tail (a : list Z) : string :=
  match a with
  | [] => ""
  | b :: a' => String ":"%char (hexByte b (HardwareAddr_tail a'))
  end.

Definition HardwareAddr_String (a : HardwareAddr) : string :=
  match a with
  | [] => ""
  | b :: a' => hexByte b (HardwareAddr_tail a')
  end.

(** ** Parsing *)

(** [func parseIPv4(s string) IP], octet [j] of four; [None] is the nil
    result.  The unread suffix stands for the index [i]. *)
Fixpoint parseIPv4_octets (todo : nat) (first : bool) (s : string)
  : option (list Z) :=
  match todo with
  | O => if slen s =? 0 then Some [] else None
  | S todo' =>
      match s with
      | EmptyString => None                         (* missing octets *)
      | String c s' =>
          let after_dot :=
            if first then Some s
            else if Ascii.eqb c "."%char then Some s' else None in
          match after_dot with
          | None => None
          | Some s1 =>
              let '(n, rest, ok) := dtoi s1 in
              if negb ok || (255 <? n) then None
              else match parseIPv4_octets todo' false rest with
                   | Some p => Some (n :: p)
                   | None => None
                   end
          end
      end
  end.

Definition parseIPv4 (s : string) : option IP :=
  match parseIPv4_octets 4 true s with
  | Some [a; b; c; d] => Some (IPv4 a b c d)
  | _ => None
  end.

(** [i := byteIndex(s, c)]; [s[:i], s[i+1:]] when [i >= 0]. *)
Fixpoint cutAt (c : ascii) (s : string) : option (string * string) :=
  match s with
  | EmptyString => None
  | String x s' =>
      if Ascii.eqb x c then Some ("", s')
      else match cutAt c s' with
           | Some (l, r) => Some (String x l, r)
           | None => None
           end
  end.

Section IPv6.

(** The two IPv6 routines of [net] are not modelled; whatever they compute
    is taken as given. *)
Variable parseIPv6 : string -> option IP.
Variable ipv6String : IP -> string.

(** [func ParseCIDR(s string) (IP, *IPNet, error)]; [None] is the
    [ParseError]. *)
Definition ParseCIDR (s : string) : option (IP * IPNet) :=
  match cutAt "/"%char s with
  | None => None
  | Some (addr, mask) =>
      let '(iplen, ip) :=
        match parseIPv4 addr with
        | Some ip => (IPv4len, Some ip)
        | None => (IPv6len, parseIPv6 addr)
        end in
      let '(n, rest, ok) := dtoi mask in
      match ip with
      | None => None
      | Some ip =>
          if negb ok || negb (slen rest =? 0) || (n <? 0) || (8 * iplen <? n)
          then None
          else let m := CIDRMask n (8 * iplen) in
               Some (ip, mkIPNet (Mask ip m) m)
      end
  end.

(** [func (ip IP) String() string] *)
Definition IP_String (ip : IP) : string :=
  if len ip =? 0 then "<nil>"
  else
    let p4 := To4 ip in
    if len p4 =? IPv4len then
      itod (nth 0 p4 0) +++ "." +++ itod (nth 1 p4 0) +++ "."
        +++ itod (nth 2 p4 0) +++ "." +++ itod (nth 3 p4 0)
    else if negb (len ip =? IPv6len) then "?"
    else ipv6String ip.

(** [func networkNumberAndMask(n *IPNet) (ip IP, m IPMask)] *)
Definition networkNumberAndMask (n : IPNet) : option (IP * IPMask) :=
  let ip4 := To4 (net_IP n) in
  let ip := if len ip4 =? 0 then net_IP n else ip4 in
  if (len ip4 =? 0) && negb (len ip =? IPv6len) then None
  else
    let m := net_Mask n in
    if len m =? IPv4len then
      if negb (len ip =? IPv4len) then None else Some (ip, m)
    else if len m =? IPv6len then
      Some (ip, if len ip =? IPv4len then skipn 12 m else m)
    else None.

(** [func simpleMaskLength(mask IPMask) int]; [None] is -1. *)
Fixpoint leadingOnes (fuel : nat) (v : Z) (n : Z) : Z * Z :=
  match fuel with
  | O => (v, n)
  | S fuel' =>
      if negb (Z.land v 128 =? 0)
      then leadingOnes fuel' (Z.land (Z.shiftl v 1) 255) (n + 1)
      else (v, n)
  end.

Fixpoint simpleMaskLength_from (mask : IPMask) (n : Z) : option Z :=
  match mask with
  | [] => Some n
  | v :: mask' =>
      if v =? 255 then simpleMaskLength_from mask' (n + 8)
      else
        let '(v', n') := leadingOnes 8 v n in
        if negb (v' =? 0) then None
        else if forallb (Z.eqb 0) mask' then Some n' else None
  end.

Definition simpleMaskLength (mask : IPMask) : option Z :=
  simpleMaskLength_from mask 0.

(** [func (m IPMask) String() string] *)
Definition IPMask_String (m : IPMask) : string :=
  if len m =? 0 then "<nil>" else EncodeToString m.

(** [func (n *IPNet) String() string] *)
Definition IPNet_String (n : IPNet) : string :=
  match networkNumberAndMask n with
  | None => "<nil>"
  | Some (nn, m) =>
      if (len nn =? 0) || (len m =? 0) then "<nil>"
      else match simpleMaskLength m with
           | None => IP_String nn +++ "/" +++ IPMask_String m
           | Some l => IP_String nn +++ "/" +++ itod l
           end
  end.

End IPv6.

End GoNet.

Import GoNet.

(* ================================================================== *)
(** * Effects: calls that leave bridge.go                              *)
(* ================================================================== *)

Module Eff.

(** A Go [error]: [None] is nil, [Some msg] carries the [Error()] text. *)
Definition error := option string.

Definition isErr (e : error) : bool :=
  match e with Some _ => true | None => false end.

(** [%s] of an error inside [fmt.Errorf]. *)
Definition errText (e : error) : string :=
  match e with Some m => m | None => "%!s(<nil>)" end.

(** [*net.Interface], as far as the code looks at it: it only passes the
    pointer on. *)
Record Interface : Type := mkInterface { if_Index : Z; if_Name : string }.

(** [*libovsdb.OvsdbClient]: an opaque session handle. *)
Definition OvsdbClient := Z.

(** One constructor per function that bridge.go calls and does not
    define, with the arguments the call site passes. *)
Inductive Call : Type :=
| ovs_connect
| Println (msg : string)
| CheckRouteOverlaps (toCheck : IPNet)
| InterfaceByName (name : string)
| GetIfaceAddr (name : string)
| CreateOVSBridge (c : OvsdbClient) (name : string)
| Sleep (d : Z)
| NetworkLinkAddIp (iface : option Interface) (ip : GoNet.IP) (ipNet : IPNet)
| NetworkLinkUp (iface : option Interface)
| LookPath (file : string)
| CombinedOutput (path : string) (args : list string)
| addVxlanPort (c : OvsdbClient) (bridge port peer : string)
| deletePort (c : OvsdbClient) (bridge port : string)
| AddInternalPort (c : OvsdbClient) (bridge port : string)
| ReadFull (n : Z)
| Request (subnet : IPNet)
| SetMtu (name : string) (mtu : Z)
| InterfaceUp (name : string)
| SetInterfaceInNamespacePid (name : string) (nspid : Z)
| InterfaceDown (name : string)
| ChangeInterfaceName (old new : string)
| SetInterfaceIp (name : string) (rawIp : string)
| SetInterfaceMac (name : string) (mac : string)
| SetDefaultGateway (ip : string) (name : string).

(** What each call hands back.  [GetIfaceAddr] returns a [net.Addr]; on
    Linux the addresses of an interface are [*net.IPNet] values. *)
Definition Reply (c : Call) : Type :=
  match c with
  | ovs_connect => (option OvsdbClient * error)%type
  | Println _ => unit
  | CheckRouteOverlaps _ => error
  | InterfaceByName _ => (option Interface * error)%type
  | GetIfaceAddr _ => (option IPNet * error)%type
  | CreateOVSBridge _ _ => unit
  | Sleep _ => unit
  | NetworkLinkAddIp _ _ _ => error
  | NetworkLinkUp _ => error
  | LookPath _ => (string * error)%type
  | CombinedOutput _ _ => (string * error)%type
  | addVxlanPort _ _ _ _ => unit
  | deletePort _ _ _ => unit
  | AddInternalPort _ _ _ => unit
  | ReadFull _ => (list Z * error)%type
  | Request _ => GoNet.IP
  | SetMtu _ _ => error
  | InterfaceUp _ => error
  | SetInterfaceInNamespacePid _ _ => error
  | InterfaceDown _ => error
  | ChangeInterfaceName _ _ => error
  | SetInterfaceIp _ _ => error
  | SetInterfaceMac _ _ => error
  | SetDefaultGateway _ _ => error
  end.

(** A program: a finite tree of calls, ending in a result or in a Go
    run-time panic. *)
Inductive Prog (A : Type) : Type :=
| Ret (a : A)
| Panic (why : string)
| Vis (c : Call) (k : Reply c -> Prog A).

Arguments Ret {A} a.
Arguments Panic {A} why.
Arguments Vis {A} c k.

Fixpoint bind {A B} (p : Prog A) (f : A -> Prog B) : Prog B :=
  match p with
  | Ret a => f a
  | Panic why => Panic why
  | Vis c k => Vis c (fun r => bind (k r) f)
  end.

Definition call (c : Call) : Prog (Reply c) := Vis c Ret.

(** Programs over package-level variables of type [S]. *)
Definition M (S A : Type) : Type := S -> Prog (A * S).

Definition ret {S A} (a : A) : M S A := fun s => Ret (a, s).
Definition mbind {S A B} (m : M S A) (f : A -> M S B) : M S B :=
  fun s => bind (m s) (fun '(a, s') => f a s').
Definition lift {S A} (p : Prog A) : M S A :=
  fun s => bind p (fun a => Ret (a, s)).
Definition gets {S A} (f : S -> A) : M S A := fun s => Ret (f s, s).
Definition modify {S} (f : S -> S) : M S unit := fun s => Ret (tt, f s).
Definition panic {S A} (why : string) : M S A := fun _ => Panic why.
Definition perform {S} (c : Call) : M S (Reply c) := lift (call c).

(** ** Running a program against an environment *)

(** The environment answers each call and may change while doing so. *)
Definition Handler (W : Type) : Type := forall c : Call, W -> Reply c * W.

Record Event : Type := Ev { ev_call : Call; ev_reply : Reply ev_call }.

Inductive Outcome (A : Type) : Type :=
| Returned (a : A)
| Panicked (why : string).

Arguments Returned {A} a.
Arguments Panicked {A} why.

Fixpoint run {W A} (h : Handler W) (p : Prog A) (w : W)
  : Outcome A * W * list Event :=
  match p with
  | Ret a => (Returned a, w, [])
  | Panic why => (Panicked why, w, [])
  | Vis c k =>
      let '(r, w1) := h c w in
      let '(o, w2, tr) := run h (k r) w1 in
      (o, w2, Ev c r :: tr)
  end.

(** The error a call replied with, for the calls that return just an
    error. *)
Definition ev_error (e : Event) : option error :=
  match e with
  | Ev (CheckRouteOverlaps _) r => Some r
  | Ev (NetworkLinkAddIp _ _ _) r => Some r
  | Ev (NetworkLinkUp _) r => Some r
  | Ev (SetMtu _ _) r => Some r
  | Ev (InterfaceUp _) r => Some r
  | Ev (SetInterfaceInNamespacePid _ _) r => Some r
  | Ev (InterfaceDown _) r => Some r
  | Ev (ChangeInterfaceName _ _) r => Some r
  | Ev (SetInterfaceIp _ _) r => Some r
  | Ev (SetInterfaceMac _ _) r => Some r
  | Ev (SetDefaultGateway _ _) r => Some r
  | _ => None
  end.

End Eff.

Import Eff.

Declare Scope prog_scope.
Delimit Scope prog_scope with prog.

Notation "x <- m ;; k" := (mbind m (fun x => k))
  (at level 61, m at next level, right associativity) : prog_scope.
Notation "' p <- m ;; k" := (mbind m (fun p => k))
  (at level 61, p pattern, m at next level, right associativity) : prog_scope.
Notation "m ;;; k" := (mbind m (fun _ => k))
  (at level 61, right associativity) : prog_scope.

(* ================================================================== *)
(** * ovs/bridge.go                                                    *)
(* ================================================================== *)

Module Bridge.
(** [type Bridge struct] *)
Record t : Type := mk { Name : string; IP : GoNet.IP; Subnet : option IPNet }.
End Bridge.

Module OvsConnection.
(** [type OvsConnection struct] *)
Record t : Type :=
  mk { Name : string; Ip : string; Subnet : string; Mac : string; Gateway : string }.
(** [OvsConnection{}] *)
Definition zero : t := mk "" "" "" "" "".
End OvsConnection.

Module Ovs.

(** [var gatewayAddrs] *)
Definition gatewayAddrs : list string :=
  [ "10.1.42.1/16";
    "10.42.42.1/16";
    "172.16.42.1/24";
    "172.16.43.1/24";
    "172.16.44.1/24";
    "10.0.42.1/24";
    "10.0.43.1/24";
    "172.17.42.1/16";
    "10.0.42.1/16";
    "192.168.42.1/24";
    "192.168.43.1/24";
    "192.168.44.1/24" ].

Definition mtu : Z := 1514.
Definition defaultBridgeName : string := "docker0-ovs".

(** [time.Second], in nanoseconds. *)
Definition Second : Z := 1000000000.

(** The package-level variables [OvsBridge] and [ovs]. *)
Record Globals : Type :=
  mkGlobals { OvsBridge : Bridge.t; ovs : option OvsdbClient }.

(** Their values when the package is loaded, before [init] runs:
    [var OvsBridge Bridge = Bridge{Name: defaultBridgeName}], [ovs] nil. *)
Definition globals0 : Globals :=
  mkGlobals (Bridge.mk defaultBridgeName [] None) None.

Definition set_resolved (ip : GoNet.IP) (n : IPNet) (g : Globals) : Globals :=
  mkGlobals (Bridge.mk (Bridge.Name (OvsBridge g)) ip (Some n)) (ovs g).

Definition set_ovs (c : option OvsdbClient) (g : Globals) : Globals :=
  mkGlobals (OvsBridge g) c.

(** Run-time panics of the Go runtime. *)
Definition nilDeref : string :=
  "runtime error: invalid memory address or nil pointer dereference".
Definition sliceBounds : string := "runtime error: slice bounds out of range".

(** The [Error()] text of [&ParseError{"CIDR address", s}]. *)
Definition ParseError (s : string) : error :=
  Some ("invalid CIDR address: " +++ s).

(** The built-in [copy(dst, src)]: the updated [dst]. *)
Fixpoint copy (dst src : list Z) : list Z :=
  match dst, src with
  | _ :: dst', s :: src' => s :: copy dst' src'
  | _, _ => dst
  end.

(** [l[i] = v] on a slice known to be long enough. *)
Fixpoint store (i : nat) (v : Z) (l : list Z) : list Z :=
  match i, l with
  | O, _ :: l' => v :: l'
  | S i', x :: l' => x :: store i' v l'
  | _, [] => []
  end.

(** [func generateMacAddr(ip net.IP) net.HardwareAddr] *)
Definition generateMacAddr (ip : GoNet.IP) : HardwareAddr :=
  let hw := repeat 0 6 in
  let hw := store 0 2 hw in          (* 0x02 *)
  let hw := store 1 66 hw in         (* 0x42 *)
  firstn 2 hw ++ copy (skipn 2 hw) (To4 ip).

(** [buf] after [io.ReadFull] stored [data] into it. *)
Definition filled (n : Z) (data : list Z) : list Z :=
  copy (repeat 0 (Z.to_nat n)) data.

(** [func GenerateRandomName(prefix string, size int) (string, error)] *)
Definition GenerateRandomName (prefix : string) (size : Z)
  : Prog (string * error) :=
  Vis (ReadFull 32) (fun '(data, err) =>
    if isErr err then Ret ("", err)
    else
      let id := filled 32 data in
      let h := EncodeToString id in
      if (size <? 0) || (slen h <? size) then Panic sliceBounds
      else Ret (prefix +++ substring 0 (Z.to_nat size) h, None)).

(** [func installRule(args ...string) ([]byte, error)] *)
Definition installRule (args : list string) : Prog (string * error) :=
  Vis (LookPath "iptables") (fun '(path, err) =>
    if isErr err then Ret ("", Some "iptables not found")
    else
      Vis (CombinedOutput path args) (fun '(output, err) =>
        if isErr err then
          Ret ("", Some ("iptables failed: iptables " +++ String.concat " " args
                         +++ ": " +++ output +++ " (" +++ errText err +++ ")"))
        else Ret (output, err))).

Definition natArgs (bridgeName bridgeIP : string) : list string :=
  ["-t"; "nat"; "-A"; "POSTROUTING"; "-s"; bridgeIP; "!"; "-o"; bridgeName;
   "-j"; "MASQUERADE"].
Definition outboundArgs (bridgeName : string) : list string :=
  ["-A"; "FORWARD"; "-i"; bridgeName; "!"; "-o"; bridgeName; "-j"; "ACCEPT"].
Definition inboundArgs (bridgeName : string) : list string :=
  ["-A"; "FORWARD"; "-o"; bridgeName; "-m"; "conntrack"; "--ctstate";
   "RELATED,ESTABLISHED"; "-j"; "ACCEPT"].

(** One rule of [setupIPTables]: install it, then the two checks that
    follow every [installRule] there. *)
Definition rule (args : list string) (next : Prog error) : Prog error :=
  bind (installRule args) (fun '(output, err) =>
    if isErr err then
      Ret (Some ("Unable to enable network bridge NAT: " +++ errText err))
    else if negb (slen output =? 0) then
      Ret (Some ("Error disabling intercontainer communication: " +++ output))
    else next).

(** [func setupIPTables(bridgeName string, bridgeIP string) error] *)
Definition setupIPTables (bridgeName bridgeIP : string) : Prog error :=
  Vis (Println "Setting up iptables") (fun _ =>
    rule (natArgs bridgeName bridgeIP)
      (rule (outboundArgs bridgeName)
         (rule (inboundArgs bridgeName)
            (Ret None)))).

Local Open Scope prog_scope.

(** [func init()] *)
Definition init : M Globals unit :=
  '(c, err) <- perform ovs_connect ;;
  modify (set_ovs c) ;;;
  if isErr err
  then perform (Println ("Error connecting OVS  " +++ errText err))
  else ret tt.

(** [func createBridgeIface(name string) error] *)
Definition createBridgeIface (name : string) : M Globals error :=
  o <- gets ovs ;;
  match o with
  | None => ret (Some "OVS not connected")
  | Some c =>
      perform (CreateOVSBridge c name) ;;;
      perform (Sleep (Second * 1)) ;;;
      ret None
  end.

(** [func AddPeer(peerIp string) error] *)
Definition AddPeer (peerIp : string) : M Globals error :=
  o <- gets ovs ;;
  match o with
  | None => ret (Some "OVS not connected")
  | Some c =>
      name <- gets (fun g => Bridge.Name (OvsBridge g)) ;;
      perform (addVxlanPort c name ("vxlan-" +++ peerIp) peerIp) ;;;
      ret None
  end.

(** [func DeletePeer(peerIp string) error] *)
Definition DeletePeer (peerIp : string) : M Globals error :=
  o <- gets ovs ;;
  match o with
  | None => ret (Some "OVS not connected")
  | Some c =>
      name <- gets (fun g => Bridge.Name (OvsBridge g)) ;;
      perform (deletePort c name ("vxlan-" +++ peerIp)) ;;;
      ret None
  end.

(** [func DeleteConnection(portName string) error] *)
Definition DeleteConnection (portName : string) : M Globals error :=
  o <- gets ovs ;;
  match o with
  | None => ret (Some "OVS not connected")
  | Some c =>
      name <- gets (fun g => Bridge.Name (OvsBridge g)) ;;
      perform (deletePort c name portName) ;;;
      ret None
  end.

(** [func createOvsInternalPort(prefix string, bridge string)
    (port string, err error)] *)
Definition createOvsInternalPort (prefix bridge : string)
  : M Globals (string * error) :=
  '(port, err) <- lift (GenerateRandomName prefix 7) ;;
  if isErr err then ret (port, err)
  else
    o <- gets ovs ;;
    match o with
    | None => ret (port, Some "OVS not connected")
    | Some c =>
        perform (AddInternalPort c bridge port) ;;;
        ret (port, None)
    end.

Section WithIPv6.

Variable parseIPv6 : string -> option GoNet.IP.
Variable ipv6String : GoNet.IP -> string.

Abbreviation ParseCIDR := (GoNet.ParseCIDR parseIPv6).
Abbreviation IP_String := (GoNet.IP_String ipv6String).
Abbreviation IPNet_String := (GoNet.IPNet_String ipv6String).

(** The [for _, addr := range gatewayAddrs] loop of
    [getAvailableGwAddress]: [inl] is a [return] executed inside the loop,
    [inr tt] is the loop running to its end. *)
Fixpoint gatewayLoop (addrs : list string) : Prog (string * error + unit) :=
  match addrs with
  | [] => Ret (inr tt)
  | addr :: rest =>
      match ParseCIDR addr with
      | None => Ret (inl ("", ParseError addr))
      | Some (_, dockerNetwork) =>
          Vis (CheckRouteOverlaps dockerNetwork) (fun err =>
            if isErr err then gatewayLoop rest
            else Ret (inl (addr, None)))
      end
  end.

(** [func getAvailableGwAddress(bridgeIP string) (gwaddr string, err error)].
    The [if]/[else] either executes a [return] ([inl]) or falls out with
    the named result [gwaddr] as it then stands ([inr]); the statement
    after the [if]/[else] is the function's last line. *)
Definition getAvailableGwAddress (bridgeIP : string) : Prog (string * error) :=
  bind
    (if negb (slen bridgeIP =? 0) then
       match ParseCIDR bridgeIP with
       | None => Ret (inl ("", ParseError bridgeIP))          (* return *)
       | Some _ => Ret (inr bridgeIP)                   (* gwaddr = bridgeIP *)
       end
     else
       bind (gatewayLoop gatewayAddrs) (fun r =>
         match r with
         | inl res => Ret (inl res)
         | inr tt => Ret (inr "")
         end))
    (fun r =>
       match r with
       | inl res => Ret res
       | inr _gwaddr => Ret ("", Some "No available GW address")
       end).

(** [func CreateBridge(bridgeIP string) error] *)
Definition CreateBridge (bridgeIP : string) : M Globals error :=
  '(ifaceAddr, err) <- lift (getAvailableGwAddress bridgeIP) ;;
  if isErr err then
    name <- gets (fun g => Bridge.Name (OvsBridge g)) ;;
    ret (Some ("Could not find a free IP address range for '" +++ name +++ "'"))
  else
  name <- gets (fun g => Bridge.Name (OvsBridge g)) ;;
  '(iface, err) <- perform (InterfaceByName name) ;;
  r <- (if (match iface with None => true | Some _ => false end) && isErr err
        then
          e <- createBridgeIface name ;;
          if isErr e then ret (inl e)
          else
            '(iface, err) <- perform (InterfaceByName name) ;;
            if isErr err then ret (inl err)
            else ret (inr (iface, ifaceAddr))
        else
          '(addr, err) <- perform (GetIfaceAddr name) ;;
          if isErr err then ret (inl err)
          else match addr with
               | None => panic nilDeref
               | Some a => ret (inr (iface, IPNet_String a))
               end) ;;
  match r with
  | inl e => ret e
  | inr (iface, ifaceAddr) =>
      match ParseCIDR ifaceAddr with
      | None => ret (ParseError ifaceAddr)
      | Some (ipAddr, ipNet) =>
          modify (set_resolved ipAddr ipNet) ;;;
          (* [if netlink.NetworkLinkAddIp(...); err != nil]: the call's own
             result is dropped, and [err] is ParseCIDR's, nil here *)
          perform (NetworkLinkAddIp iface ipAddr ipNet) ;;;
          e <- perform (NetworkLinkUp iface) ;;
          if isErr e then
            ret (Some ("Unable to start network bridge: " +++ errText e))
          else
            name <- gets (fun g => Bridge.Name (OvsBridge g)) ;;
            ip <- gets (fun g => Bridge.IP (OvsBridge g)) ;;
            e <- lift (setupIPTables name (IP_String ip)) ;;
            if isErr e then ret e else ret None
      end
  end.

(** [func AddConnection(nspid int) (ovsConnection OvsConnection, err error)] *)
Definition AddConnection (nspid : Z) : M Globals (OvsConnection.t * error) :=
  bridge <- gets (fun g => Bridge.Name (OvsBridge g)) ;;
  let prefix := "ovs" in
  let ovsConnection := OvsConnection.zero in
  if String.eqb bridge "" then
    ret (ovsConnection, Some "bridge is not available")
  else
  '(portName, err) <- createOvsInternalPort prefix bridge ;;
  if isErr err then ret (ovsConnection, err) else
  perform (Sleep (Second * 1)) ;;;
  sn <- gets (fun g => Bridge.Subnet (OvsBridge g)) ;;
  match sn with
  | None => panic nilDeref                          (* dereference of OvsBridge.Subnet *)
  | Some sn =>
  ip <- perform (Request sn) ;;
  let subnet := IPNet_String sn in
  let mac := HardwareAddr_String (generateMacAddr ip) in
  gw <- gets (fun g => Bridge.IP (OvsBridge g)) ;;
  let gatewayIp := IP_String gw in
  if slen subnet <? 3 then panic sliceBounds else
  let subnetPrefix :=
    substring (Z.to_nat (slen subnet - 3)) 3 subnet in
  let ovsConnection :=
    OvsConnection.mk portName (IP_String ip) subnetPrefix mac gatewayIp in
  let fail (err : error) : M Globals (OvsConnection.t * error) :=
    ret (ovsConnection, err) in                      (* a bare [return] *)
  err <- perform (SetMtu portName mtu) ;;
  if isErr err then fail err else
  err <- perform (InterfaceUp portName) ;;
  if isErr err then fail err else
  err <- perform (SetInterfaceInNamespacePid portName nspid) ;;
  if isErr err then fail err else
  err <- perform (InterfaceDown portName) ;;
  if isErr err then fail err else
  err <- perform (ChangeInterfaceName portName portName) ;;
  if isErr err then fail err else
  err <- perform (SetInterfaceIp portName (IP_String ip)) ;;
  if isErr err then fail err else
  err <- perform (SetInterfaceMac portName
                    (HardwareAddr_String (generateMacAddr ip))) ;;
  if isErr err then fail err else
  err <- perform (InterfaceUp portName) ;;
  if isErr err then fail err else
  gw <- gets (fun g => Bridge.IP (OvsBridge g)) ;;
  err <- perform (SetDefaultGateway (IP_String gw) portName) ;;
  if isErr err then fail err else
  ret (ovsConnection, None)
  end.

End WithIPv6.

End Ovs.

Import Ovs.

(* ================================================================== *)
(** * A concrete host, to run the programs on                          *)
(* ================================================================== *)

Module Host.

(** The state of a small simulated host. *)
Record World : Type := mkWorld {
  bridgeIface : option (Interface * IPNet);   (* the bridge interface, if any *)
  busy : list IPNet;                          (* networks with a route *)
  broken : Call -> bool;                      (* kernel calls that fail *)
  nextHost : Z                                (* next address to hand out *)
}.

Definition sameNet (a b : IPNet) : bool :=
  bytesEqual (net_IP a) (net_IP b) && bytesEqual (net_Mask a) (net_Mask b).

Definition status (w : World) (c : Call) : error :=
  if broken w c then Some "operation not permitted" else None.

Definition created (name : string) (w : World) : World :=
  mkWorld (Some (mkInterface 7 name, mkIPNet [] [])) (busy w) (broken w)
    (nextHost w).

Definition host : Handler World := fun c =>
  match c as c0 return World -> Reply c0 * World with
  | ovs_connect => fun w => ((Some 1, None), w)
  | Println _ => fun w => (tt, w)
  | CheckRouteOverlaps n => fun w =>
      (if existsb (sameNet n) (busy w) then Some "Overlaps with existing route"
       else None, w)
  | InterfaceByName _ => fun w =>
      (match bridgeIface w with
       | Some (i, _) => (Some i, None)
       | None => (None, Some "no such network interface")
       end, w)
  | GetIfaceAddr _ => fun w =>
      (match bridgeIface w with
       | Some (_, a) => (Some a, None)
       | None => (None, Some "no such network interface")
       end, w)
  | CreateOVSBridge _ name => fun w => (tt, created name w)
  | Sleep _ => fun w => (tt, w)
  | NetworkLinkAddIp _ _ _ as c' => fun w => (status w c', w)
  | NetworkLinkUp _ as c' => fun w => (status w c', w)
  | LookPath _ => fun w => (("/sbin/iptables", None), w)
  | CombinedOutput _ _ => fun w => (("", None), w)
  | addVxlanPort _ _ _ _ => fun w => (tt, w)
  | deletePort _ _ _ => fun w => (tt, w)
  | AddInternalPort _ _ _ => fun w => (tt, w)
  | ReadFull n => fun w => ((repeat 171 (Z.to_nat n), None), w)
  | Request sn => fun w =>
      (firstn 3 (net_IP sn) ++ [nextHost w],
       mkWorld (bridgeIface w) (busy w) (broken w) (nextHost w + 1))
  | SetMtu _ _ as c' => fun w => (status w c', w)
  | InterfaceUp _ as c' => fun w => (status w c', w)
  | SetInterfaceInNamespacePid _ _ as c' => fun w => (status w c', w)
  | InterfaceDown _ as c' => fun w => (status w c', w)
  | ChangeInterfaceName _ _ as c' => fun w => (status w c', w)
  | SetInterfaceIp _ _ as c' => fun w => (status w c', w)
  | SetInterfaceMac _ _ as c' => fun w => (status w c', w)
  | SetDefaultGateway _ _ as c' => fun w => (status w c', w)
  end.

(** A fresh host: no bridge, no conflicting route, nothing fails. *)
Definition fresh : World := mkWorld None [] (fun _ => false) 2.

(** A host on which the bridge interface already exists, with the address
    192.168.7.1/24. *)
Definition withBridge : World :=
  mkWorld
    (Some (mkInterface 7 "docker0-ovs",
           mkIPNet [192; 168; 7; 1] [255; 255; 255; 0]))
    [] (fun _ => false) 2.

(** A host on which assigning an address to an interface fails. *)
Definition noSetIp : World :=
  mkWorld None []
    (fun c => match c with SetInterfaceIp _ _ => true | _ => false end) 2.

(** A host with routes to the networks of the first six candidates. *)
Definition sixBusy : World :=
  mkWorld None
    [ mkIPNet [10; 1; 0; 0] [255; 255; 0; 0];
      mkIPNet [10; 42; 0; 0] [255; 255; 0; 0];
      mkIPNet [172; 16; 42; 0] [255; 255; 255; 0];
      mkIPNet [172; 16; 43; 0] [255; 255; 255; 0];
      mkIPNet [172; 16; 44; 0] [255; 255; 255; 0];
      mkIPNet [10; 0; 42; 0] [255; 255; 255; 0] ]
    (fun _ => false) 2.

(** IPv6 is not exercised on this host. *)
Definition noParseIPv6 : string -> option GoNet.IP := fun _ => None.
Definition noIPv6String : GoNet.IP -> string := fun _ => "".

(** The package variables once [init] has connected to the switch. *)
Definition connected : Globals := set_ovs (Some 1) globals0.

(** ... and once a bridge at 10.1.42.1/16 has been resolved. *)
Definition bridged : Globals :=
  set_resolved (IPv4 10 1 42 1) (mkIPNet [10; 1; 0; 0] [255; 255; 0; 0])
    connected.

End Host.

(* ================================================================== *)
(** * Vocabulary of the statements                                     *)
(* ================================================================== *)

(** A valid IPv4 address, as Go tests it: [len(ip.To4()) == IPv4len]. *)
Definition validIPv4 (ip : GoNet.IP) : Prop := len (To4 ip) = IPv4len.

(** The in-namespace configuration steps of [AddConnection], in the order
    the design document lists them. *)
Definition nsSteps (portName ip mac gateway : string) : list Call :=
  [ InterfaceDown portName;
    ChangeInterfaceName portName portName;
    SetInterfaceIp portName ip;
    SetInterfaceMac portName mac;
    InterfaceUp portName;
    SetDefaultGateway gateway portName ].

(** [stepsRun steps tr res]: the events [tr] are the calls [steps], in
    order, up to and including the first that replied with an error;
    nothing follows a failed step; [res] is that error, or nil when every
    step was made and succeeded. *)
Fixpoint stepsRun (steps : list Call) (tr : list Event) (res : error) : Prop :=
  match steps, tr with
  | [], [] => res = None
  | s :: steps', e :: tr' =>
      ev_call e = s
      /\ match ev_error e with
         | Some None => stepsRun steps' tr' res
         | Some (Some msg) => tr' = [] /\ res = Some msg
         | None => False
         end
  | _, _ => False
  end.

(** The part of a trace that runs inside the namespace: the port that was
    moved and the events after [SetInterfaceInNamespacePid] succeeded. *)
Fixpoint inNamespace (tr : list Event) : option (string * list Event) :=
  match tr with
  | [] => None
  | e :: rest =>
      match ev_call e, ev_error e with
      | SetInterfaceInNamespacePid name _, Some None => Some (name, rest)
      | _, _ => inNamespace rest
      end
  end.

(** Calls that [AddConnection] makes only inside the namespace. *)
Definition nsOnly (c : Call) : bool :=
  match c with
  | InterfaceDown _ | ChangeInterfaceName _ _ | SetInterfaceIp _ _
  | SetInterfaceMac _ _ | SetDefaultGateway _ _ => true
  | _ => false
  end.

(** The rules handed to iptables, in order: the argument lists of the
    commands that were run. *)
Fixpoint firewallRules (tr : list Event) : list (list string) :=
  match tr with
  | [] => []
  | e :: rest =>
      match ev_call e with
      | CombinedOutput _ args => args :: firewallRules rest
      | _ => firewallRules rest
      end
  end.

(** The source selector of a rule: the argument after "-s". *)
Fixpoint sourceSelector (args : list string) : option string :=
  match args with
  | flag :: rest =>
      if String.eqb flag "-s" then hd_error rest else sourceSelector rest
  | [] => None
  end.

(** An interface address as the kernel reports it for IPv4: four bytes (in
    4-byte or 16-byte form) and a prefix length. *)
Definition ifaceAddrIPv4 (a : IPNet) (b0 b1 b2 b3 ones : Z) : Prop :=
  To4 (net_IP a) = [b0; b1; b2; b3]
  /\ Forall (fun b => 0 <= b < 256) [b0; b1; b2; b3]
  /\ 0 <= ones <= 32
  /\ net_Mask a = CIDRMask ones 32.

Section Vocabulary.

Variable parseIPv6 : string -> option GoNet.IP.

(** The checker was asked about candidate [addr] and reported an overlap,
    respectively none. *)
Definition reportsOverlap (addr : string) (e : Event) : Prop :=
  exists ip dockerNetwork msg,
    GoNet.ParseCIDR parseIPv6 addr = Some (ip, dockerNetwork)
    /\ e = Ev (CheckRouteOverlaps dockerNetwork) (Some msg).

Definition reportsFree (addr : string) (e : Event) : Prop :=
  exists ip dockerNetwork,
    GoNet.ParseCIDR parseIPv6 addr = Some (ip, dockerNetwork)
    /\ e = Ev (CheckRouteOverlaps dockerNetwork) None.

Definition parses (addr : string) : Prop :=
  exists parsed, GoNet.ParseCIDR parseIPv6 addr = Some parsed.

End Vocabulary.

(** ** Text of numbers and addresses, for the round trip *)

Fixpoint allChars (p : ascii -> bool) (s : string) : bool :=
  match s with
  | EmptyString => true
  | String c s' => p c && allChars p s'
  end.

Definition startsNonDigit (s : string) : Prop :=
  match s with
  | EmptyString => True
  | String c _ => isDigit c = false
  end.

Definition notSlash (c : ascii) : bool := negb (Ascii.eqb c "/"%char).

(** What is checked of the decimal text of one number [b]. *)
Definition decimalOK (b : Z) : bool :=
  let '(v, rest, ok) := dtoi (itod b) in
  (v =? b) && String.eqb rest "" && ok
  && allChars isDigit (itod b)
  && negb (String.eqb (itod b) "").

(** The dotted-decimal text of four bytes. *)
Definition dotted (b0 b1 b2 b3 : Z) : string :=
  itod b0 +++ "." +++ itod b1 +++ "." +++ itod b2 +++ "." +++ itod b3.

(** What is checked of the mask of one prefix length. *)
Definition maskOK (ones : Z) : bool :=
  (len (CIDRMask ones 32) =? 4)
  && match simpleMaskLength (CIDRMask ones 32) with
     | Some l => l =? ones
     | None => false
     end.


(* ================================================================== *)
(** * Vocabulary of the further properties                             *)
(* ================================================================== *)

(** What a call replied, for the calls whose reply is looked at. *)
Definition ev_lookup (e : Event) : option (option Interface * error) :=
  match e with
  | Ev (InterfaceByName _) r => Some r
  | _ => None
  end.

Definition ev_allocated (e : Event) : option GoNet.IP :=
  match e with
  | Ev (Request _) r => Some r
  | _ => None
  end.

Definition ev_output (e : Event) : option (string * error) :=
  match e with
  | Ev (CombinedOutput _ _) r => Some r
  | _ => None
  end.

Definition ev_path (e : Event) : option (string * error) :=
  match e with
  | Ev (LookPath _) r => Some r
  | _ => None
  end.

(** The reply to the first [net.InterfaceByName] of a run. *)
Fixpoint firstLookup (tr : list Event) : option (option Interface * error) :=
  match tr with
  | [] => None
  | e :: rest =>
      match ev_lookup e with
      | Some r => Some r
      | None => firstLookup rest
      end
  end.

(** The address the allocator handed out in a run, if it was asked. *)
Fixpoint allocated (tr : list Event) : option GoNet.IP :=
  match tr with
  | [] => None
  | e :: rest =>
      match ev_allocated e with
      | Some ip => Some ip
      | None => allocated rest
      end
  end.

Definition isCheck (c : Call) : bool :=
  match c with CheckRouteOverlaps _ => true | _ => false end.

Definition isAddIp (c : Call) : bool :=
  match c with NetworkLinkAddIp _ _ _ => true | _ => false end.

(** Calls made only to create the bridge on the switch. *)
Definition createsBridge (c : Call) : bool :=
  match c with CreateOVSBridge _ _ | Sleep _ => true | _ => false end.

(** Calls to the switch control plane. *)
Definition onSwitch (c : Call) : bool :=
  match c with
  | CreateOVSBridge _ _ | addVxlanPort _ _ _ _ | deletePort _ _ _
  | AddInternalPort _ _ _ => true
  | _ => false
  end.

(** The interface and the events that follow the first
    [netlink.NetworkLinkAddIp] of a run. *)
Fixpoint afterAddIp (tr : list Event)
  : option (option Interface * list Event) :=
  match tr with
  | [] => None
  | e :: rest =>
      match ev_call e with
      | NetworkLinkAddIp iface _ _ => Some (iface, rest)
      | _ => afterAddIp rest
      end
  end.

(** An iptables command that ran, exited with success and printed
    nothing: what [setupIPTables] accepts. *)
Definition cleanRun (e : Event) : bool :=
  match ev_output e with
  | Some (output, err) => (slen output =? 0) && negb (isErr err)
  | None => true
  end.

(** A failed search for the iptables executable. *)
Definition lookPathFailed (e : Event) : bool :=
  match ev_path e with
  | Some (_, err) => isErr err
  | None => false
  end.

(** The three rules of [setupIPTables]. *)
Definition allRules (bridgeName bridgeIP : string) : list (list string) :=
  [ natArgs bridgeName bridgeIP; outboundArgs bridgeName;
    inboundArgs bridgeName ].

(** The host-side and in-namespace calls of a complete [AddConnection]. *)
Definition attachCalls (c : OvsdbClient) (bridge portName : string)
  (sn : IPNet) (nspid : Z) (ip mac gateway : string) : list Call :=
  [ ReadFull 32;
    AddInternalPort c bridge portName;
    Sleep (Second * 1);
    Request sn;
    SetMtu portName 1514;
    InterfaceUp portName;
    SetInterfaceInNamespacePid portName nspid ]
  ++ nsSteps portName ip mac gateway.

Module Scenario.

(** A host on which assigning the bridge address fails. *)
Definition noAddIp : Host.World :=
  Host.mkWorld None []
    (fun c => match c with NetworkLinkAddIp _ _ _ => true | _ => false end) 2.

(** A host on which bringing the bridge up fails. *)
Definition noLinkUp : Host.World :=
  Host.mkWorld None []
    (fun c => match c with NetworkLinkUp _ => true | _ => false end) 2.

(** A host on which setting the MTU fails. *)
Definition noMtu : Host.World :=
  Host.mkWorld None []
    (fun c => match c with SetMtu _ _ => true | _ => false end) 2.

(** The package variables with a bridge on 10.0.0.1/8, respectively
    192.168.7.1/24. *)
Definition slash8 : Globals :=
  set_resolved (IPv4 10 0 0 1) (mkIPNet [10; 0; 0; 0] [255; 0; 0; 0])
    Host.connected.

Definition slash24 : Globals :=
  set_resolved (IPv4 192 168 7 1)
    (mkIPNet [192; 168; 7; 0] [255; 255; 255; 0]) Host.connected.

(** A host without iptables: the handler of [Host], except that the
    executable is not found. *)
Definition noIptables : Handler Host.World := fun c =>
  match c as c0 return Host.World -> Reply c0 * Host.World with
  | LookPath _ => fun w =>
      (("", Some "executable file not found in $PATH"), w)
  | c' => Host.host c'
  end.

(** A host whose random source yields other bytes, equal to those of
    [Host] in the first three and in the high half of the fourth. *)
Definition otherRandom : Handler Host.World := fun c =>
  match c as c0 return Host.World -> Reply c0 * Host.World with
  | ReadFull n => fun w =>
      (([171; 171; 171; 160] ++ repeat 7 (Z.to_nat n - 4), None), w)
  | c' => Host.host c'
  end.

(** A host on which the switch cannot be reached. *)
Definition noSwitch : Handler Host.World := fun c =>
  match c as c0 return Host.World -> Reply c0 * Host.World with
  | ovs_connect => fun w => ((None, Some "connection refused"), w)
  | c' => Host.host c'
  end.

(** A host on which the bridge interface exists, with the address
    192.168.7.1/24, and every candidate network already has a route. *)
Definition allBusyWithBridge : Host.World :=
  Host.mkWorld
    (Some (mkInterface 7 "docker0-ovs",
           mkIPNet [192; 168; 7; 1] [255; 255; 255; 0]))
    [ mkIPNet [10; 1; 0; 0] [255; 255; 0; 0];
      mkIPNet [10; 42; 0; 0] [255; 255; 0; 0];
      mkIPNet [172; 16; 42; 0] [255; 255; 255; 0];
      mkIPNet [172; 16; 43; 0] [255; 255; 255; 0];
      mkIPNet [172; 16; 44; 0] [255; 255; 255; 0];
      mkIPNet [10; 0; 42; 0] [255; 255; 255; 0];
      mkIPNet [10; 0; 43; 0] [255; 255; 255; 0];
      mkIPNet [172; 17; 0; 0] [255; 255; 0; 0];
      mkIPNet [10; 0; 0; 0] [255; 255; 0; 0];
      mkIPNet [192; 168; 42; 0] [255; 255; 255; 0];
      mkIPNet [192; 168; 43; 0] [255; 255; 255; 0];
      mkIPNet [192; 168; 44; 0] [255; 255; 255; 0] ]
    (fun _ => false) 2.

End Scenario.

(** A lowercase hexadecimal digit. *)
Definition isLowerHex (c : ascii) : bool :=
  let n := Z.of_nat (nat_of_ascii c) in
  ((48 <=? n) && (n <=? 57)) || ((97 <=? n) && (n <=? 102)).

(** What is checked of the two hex digits of one byte. *)
Definition hexOK (b : Z) : bool :=
  isLowerHex (hexChar (Z.shiftr b 4)) && isLowerHex (hexChar (Z.land b 15)).

(** The last character of a string. *)
Fixpoint lastOf (s : string) : option ascii :=
  match s with
  | EmptyString => None
  | String c EmptyString => Some c
  | String _ s' => lastOf s'
  end.

(** The character of the last decimal digit of [b]. *)
Definition lastDigit (b : Z) : ascii :=
  ascii_of_nat (Z.to_nat (b mod 10 + 48)).

(** What is checked of the last character of the decimal text of [b]. *)
Definition lastDigitOK (b : Z) : bool :=
  match lastOf (itod b) with
  | Some c => Ascii.eqb c (lastDigit b)
  | None => false
  end.

(* ================================================================== *)
(** * The model at work                                                *)
(* ================================================================== *)

Example parse_demo :
  ParseCIDR (fun _ => None) "10.1.42.1/16"
  = Some (IPv4 10 1 42 1, mkIPNet [10; 1; 0; 0] [255; 255; 0; 0]).
Proof. vm_compute. reflexivity. Qed.

Example string_demo :
  IPNet_String (fun _ => "") (mkIPNet [10; 1; 0; 0] [255; 255; 0; 0]) = "10.1.0.0/16"
  /\ IP_String (fun _ => "") (IPv4 10 1 42 1) = "10.1.42.1"
  /\ HardwareAddr_String [2; 66; 10; 1; 0; 2] = "02:42:0a:01:00:02".
Proof. vm_compute. repeat split. Qed.

Example init_connects :
  run Host.host (init globals0) Host.fresh
  = (Returned (tt, Host.connected), Host.fresh, [Ev ovs_connect (Some 1, None)]).
Proof. reflexivity. Qed.

Example CreateBridge_no_explicit_demo :
  let '(o, _, tr) :=
    run Host.host
      (CreateBridge Host.noParseIPv6 Host.noIPv6String "" Host.connected)
      Host.fresh in
  o = Returned (None, Host.bridged) /\ List.length tr = 14%nat.
Proof. vm_compute. split; reflexivity. Qed.

Example AddConnection_demo :
  let '(o, _, tr) :=
    run Host.host
      (AddConnection Host.noIPv6String 4242 Host.bridged) Host.fresh in
  o = Returned
        (OvsConnection.mk "ovsabababa" "10.1.0.2" "/16" "02:42:0a:01:00:02"
           "10.1.42.1", None, Host.bridged)
  /\ List.length tr = 13%nat.
Proof. vm_compute. split; reflexivity. Qed.

(** The scenario of the design document: the first six candidates overlap
    existing routes, the seventh does not. *)
Example seventh_candidate_selected :
  let '(o, _, tr) :=
    run Host.host (getAvailableGwAddress Host.noParseIPv6 "") Host.sixBusy in
  o = Returned ("10.0.43.1/24", None) /\ List.length tr = 7%nat.
Proof. vm_compute. split; reflexivity. Qed.

(* ================================================================== *)
(** * Facts about the [net] model: printing and parsing IPv4           *)
(* ================================================================== *)

(** [ParseCIDR] inverts [IPNet.String] on IPv4 interface addresses. *)

Lemma append_empty_r (s : string) : s +++ "" = s.
Proof. induction s as [| c s IH]; simpl; [reflexivity | now rewrite IH]. Qed.

Lemma allChars_app (p : ascii -> bool) (s t : string) :
  allChars p (s +++ t) = allChars p s && allChars p t.
Proof.
  induction s as [| c s IH]; simpl; [reflexivity |].
  rewrite IH. apply andb_assoc.
Qed.

Lemma allChars_weaken (p q : ascii -> bool) (s : string) :
  (forall c, p c = true -> q c = true) ->
  allChars p s = true -> allChars q s = true.
Proof.
  intros Hpq. induction s as [| c s IH]; simpl; [reflexivity |].
  intros H. apply andb_true_iff in H as [Hc Hs].
  rewrite (Hpq _ Hc), (IH Hs). reflexivity.
Qed.

Lemma digit_notSlash (c : ascii) : isDigit c = true -> notSlash c = true.
Proof.
  intros H. unfold notSlash. destruct (Ascii.eqb_spec c "/"%char) as [-> |].
  - discriminate H.
  - reflexivity.
Qed.

Lemma decimalOK_bytes :
  forallb (fun n => decimalOK (Z.of_nat n)) (seq 0 256) = true.
Proof. vm_compute. reflexivity. Qed.

Lemma decimalOK_byte (b : Z) : 0 <= b < 256 -> decimalOK b = true.
Proof.
  intros Hb. pose proof decimalOK_bytes as H.
  rewrite forallb_forall in H.
  specialize (H (Z.to_nat b)). rewrite Z2Nat.id in H by lia.
  apply H. apply in_seq. lia.
Qed.

Lemma itod_byte (b : Z) :
  0 <= b < 256 ->
  dtoi (itod b) = (b, "", true)
  /\ allChars isDigit (itod b) = true
  /\ itod b <> "".
Proof.
  intros Hb. pose proof (decimalOK_byte b Hb) as H. unfold decimalOK in H.
  destruct (dtoi (itod b)) as [[v rest] ok].
  apply andb_true_iff in H as [H Hne]. apply andb_true_iff in H as [H Hdig].
  apply andb_true_iff in H as [H Hok]. apply andb_true_iff in H as [Hv Hrest].
  apply Z.eqb_eq in Hv. apply String.eqb_eq in Hrest. subst v rest ok.
  repeat split; auto.
  intros E. rewrite E in Hne. discriminate Hne.
Qed.

(** Reading a number that is followed by something that is not a digit. *)
Lemma dtoi_from_app (ds rest : string) :
  startsNonDigit rest ->
  forall n seen v,
    dtoi_from ds n seen = (v, "", true) ->
    dtoi_from (ds +++ rest) n seen = (v, rest, true).
Proof.
  intros Hrest. induction ds as [| c ds IH]; intros n seen v H.
  - simpl in H. destruct seen; [| discriminate H].
    injection H as <-. simpl.
    destruct rest as [| c r]; [reflexivity |].
    simpl in Hrest |- *. rewrite Hrest. reflexivity.
  - simpl in H |- *. destruct (isDigit c).
    + destruct (big <=? n * 10 + digitVal c); [discriminate H |].
      apply IH; assumption.
    + destruct seen; discriminate H.
Qed.

Lemma dtoi_itod_app (b : Z) (rest : string) :
  0 <= b < 256 -> startsNonDigit rest ->
  dtoi (itod b +++ rest) = (b, rest, true).
Proof.
  intros Hb Hrest. apply dtoi_from_app; [assumption |].
  apply (itod_byte b Hb).
Qed.

Lemma cutAt_slash (s1 s2 : string) :
  allChars notSlash s1 = true ->
  cutAt "/"%char (s1 +++ String "/"%char s2) = Some (s1, s2).
Proof.
  induction s1 as [| c s1 IH]; simpl; intros H; [reflexivity |].
  apply andb_true_iff in H as [Hc Hs]. unfold notSlash in Hc.
  destruct (Ascii.eqb c "/"%char); [discriminate Hc |].
  rewrite (IH Hs). reflexivity.
Qed.

Lemma parseIPv4_octet (todo : nat) (b : Z) (rest : string) :
  0 <= b < 256 -> startsNonDigit rest ->
  parseIPv4_octets (S todo) true (itod b +++ rest)
  = match parseIPv4_octets todo false rest with
    | Some p => Some (b :: p)
    | None => None
    end.
Proof.
  intros Hb Hrest.
  pose proof (dtoi_itod_app b rest Hb Hrest) as Hd.
  destruct (itod_byte b Hb) as (_ & _ & Hne).
  destruct (itod b) as [| c s]; [congruence |].
  cbn [parseIPv4_octets String.append] in *. rewrite Hd.
  replace (255 <? b) with false by (symmetry; apply Z.ltb_ge; lia).
  reflexivity.
Qed.

Lemma dot_app (s : string) : "." +++ s = String "."%char s.
Proof. reflexivity. Qed.

Lemma parseIPv4_dot (todo : nat) (s : string) :
  parseIPv4_octets (S todo) false (String "."%char s)
  = parseIPv4_octets (S todo) true s.
Proof. destruct s; reflexivity. Qed.

Lemma parseIPv4_dotted (b0 b1 b2 b3 : Z) :
  Forall (fun b => 0 <= b < 256) [b0; b1; b2; b3] ->
  parseIPv4 (dotted b0 b1 b2 b3) = Some (IPv4 b0 b1 b2 b3).
Proof.
  intros H.
  inversion_clear H as [| ? ? H0 H']. inversion_clear H' as [| ? ? H1 H''].
  inversion_clear H'' as [| ? ? H2 H']. inversion_clear H' as [| ? ? H3 _].
  unfold parseIPv4, dotted. rewrite !dot_app.
  rewrite parseIPv4_octet by (auto; reflexivity). rewrite parseIPv4_dot.
  rewrite parseIPv4_octet by (auto; reflexivity). rewrite parseIPv4_dot.
  rewrite parseIPv4_octet by (auto; reflexivity). rewrite parseIPv4_dot.
  rewrite <- (append_empty_r (itod b3)).
  rewrite parseIPv4_octet by (auto; exact I).
  reflexivity.
Qed.

Lemma dotted_notSlash (b0 b1 b2 b3 : Z) :
  Forall (fun b => 0 <= b < 256) [b0; b1; b2; b3] ->
  allChars notSlash (dotted b0 b1 b2 b3) = true.
Proof.
  intros H.
  inversion_clear H as [| ? ? H0 H']. inversion_clear H' as [| ? ? H1 H''].
  inversion_clear H'' as [| ? ? H2 H']. inversion_clear H' as [| ? ? H3 _].
  assert (D : forall b, 0 <= b < 256 -> allChars notSlash (itod b) = true).
  { intros b Hb. apply (allChars_weaken isDigit); [apply digit_notSlash |].
    apply (itod_byte b Hb). }
  unfold dotted. rewrite !dot_app.
  repeat (rewrite allChars_app; cbn [allChars]).
  rewrite !D by assumption. reflexivity.
Qed.

Lemma maskOK_prefixes :
  forallb (fun n => maskOK (Z.of_nat n)) (seq 0 33) = true.
Proof. vm_compute. reflexivity. Qed.

Lemma CIDRMask_32 (ones : Z) :
  0 <= ones <= 32 ->
  len (CIDRMask ones 32) = 4
  /\ simpleMaskLength (CIDRMask ones 32) = Some ones.
Proof.
  intros Ho. pose proof maskOK_prefixes as H.
  rewrite forallb_forall in H.
  specialize (H (Z.to_nat ones)). rewrite Z2Nat.id in H by lia.
  assert (Hin : In (Z.to_nat ones) (seq 0 33)) by (apply in_seq; lia).
  specialize (H Hin). unfold maskOK in H.
  apply andb_true_iff in H as [Hl Hs]. apply Z.eqb_eq in Hl.
  destruct (simpleMaskLength (CIDRMask ones 32)) as [l |]; [| discriminate Hs].
  apply Z.eqb_eq in Hs. subst l. auto.
Qed.

Lemma len4_inv {A} (l : list A) :
  len l = 4 -> exists a b c d, l = [a; b; c; d].
Proof.
  unfold len; intros H.
  destruct l as [| a [| b [| c [| d [| e l]]]]]; simpl in H; try lia.
  now exists a, b, c, d.
Qed.

Lemma Mask_IPv4 (b0 b1 b2 b3 : Z) (m : IPMask) :
  len m = 4 ->
  Mask (IPv4 b0 b1 b2 b3) m = and_bytes [b0; b1; b2; b3] m.
Proof.
  intros H. destruct (len4_inv m H) as (m0 & m1 & m2 & m3 & ->). reflexivity.
Qed.

Section RoundTrip.

Variable parseIPv6 : string -> option GoNet.IP.
Variable ipv6String : GoNet.IP -> string.

Lemma IP_String_4 (b0 b1 b2 b3 : Z) :
  GoNet.IP_String ipv6String [b0; b1; b2; b3] = dotted b0 b1 b2 b3.
Proof. reflexivity. Qed.

Lemma IPNet_String_IPv4 (a : IPNet) (b0 b1 b2 b3 ones : Z) :
  ifaceAddrIPv4 a b0 b1 b2 b3 ones ->
  GoNet.IPNet_String ipv6String a
  = dotted b0 b1 b2 b3 +++ String "/"%char (itod ones).
Proof.
  intros (Hip & Hb & Ho & Hm).
  destruct (CIDRMask_32 ones Ho) as [Hl Hs].
  unfold GoNet.IPNet_String, networkNumberAndMask.
  rewrite Hip, Hm, Hl.
  cbn [len List.length Z.of_nat Pos.of_succ_nat Pos.succ Z.eqb Pos.eqb
       andb negb orb IPv4len IPv6len].
  rewrite Hl, Hs. rewrite IP_String_4. reflexivity.
Qed.

(** [ParseCIDR] reads back what [IPNet.String] printed for an IPv4 interface
    address: the address (16-byte form) and its network. *)
Lemma ParseCIDR_IPNet_String (a : IPNet) (b0 b1 b2 b3 ones : Z) :
  ifaceAddrIPv4 a b0 b1 b2 b3 ones ->
  GoNet.ParseCIDR parseIPv6 (GoNet.IPNet_String ipv6String a)
  = Some (IPv4 b0 b1 b2 b3,
          mkIPNet (and_bytes [b0; b1; b2; b3] (CIDRMask ones 32))
                  (CIDRMask ones 32)).
Proof.
  intros Ha. rewrite (IPNet_String_IPv4 _ _ _ _ _ _ Ha).
  destruct Ha as (Hip & Hb & Ho & Hm).
  destruct (CIDRMask_32 ones Ho) as [Hl Hs].
  unfold GoNet.ParseCIDR.
  rewrite cutAt_slash by (apply dotted_notSlash; assumption).
  rewrite parseIPv4_dotted by assumption.
  destruct (itod_byte ones ltac:(lia)) as (Hd & _ & _). rewrite Hd.
  replace (ones <? 0) with false by (symmetry; apply Z.ltb_ge; lia).
  replace (8 * IPv4len <? ones) with false
    by (symmetry; apply Z.ltb_ge; unfold IPv4len; lia).
  cbn [negb orb slen String.length Z.of_nat Z.eqb].
  change (8 * IPv4len) with 32.
  rewrite Mask_IPv4 by assumption. reflexivity.
Qed.

End RoundTrip.
(* ================================================================== *)
(** * Properties                                                       *)
(* ================================================================== *)

(** ** Running a sequence *)

Lemma run_bind {W A B} (h : Handler W) (p : Prog A) (f : A -> Prog B) (w : W) :
  run h (bind p f) w =
  match run h p w with
  | (Returned a, w1, tr1) =>
      let '(o, w2, tr2) := run h (f a) w1 in (o, w2, tr1 ++ tr2)
  | (Panicked why, w1, tr1) => (Panicked why, w1, tr1)
  end.
Proof.
  revert w; induction p as [a | why | c k IH]; intros w; simpl.
  - destruct (run h (f a) w) as [[o w2] tr2]; reflexivity.
  - reflexivity.
  - destruct (h c w) as [r w1]. rewrite IH.
    destruct (run h (k r) w1) as [[[a | why] w2] tr1]; [| reflexivity].
    destruct (run h (f a) w2) as [[o w3] tr2]; reflexivity.
Qed.

Lemma run_lift {W S A} (h : Handler W) (p : Prog A) (s : S) (w : W) :
  run h (lift p s) w =
  match run h p w with
  | (Returned a, w1, tr) => (Returned (a, s), w1, tr)
  | (Panicked why, w1, tr) => (Panicked why, w1, tr)
  end.
Proof.
  unfold lift. rewrite run_bind.
  destruct (run h p w) as [[[a | why] w1] tr]; simpl; [| reflexivity].
  rewrite app_nil_r; reflexivity.
Qed.

Section Properties.

Variable parseIPv6 : string -> option GoNet.IP.
Variable ipv6String : GoNet.IP -> string.

Abbreviation ParseCIDR := (GoNet.ParseCIDR parseIPv6).
Abbreviation IP_String := (GoNet.IP_String ipv6String).
Abbreviation IPNet_String := (GoNet.IPNet_String ipv6String).
Abbreviation getAvailableGwAddress := (Ovs.getAvailableGwAddress parseIPv6).
Abbreviation CreateBridge := (Ovs.CreateBridge parseIPv6 ipv6String).
Abbreviation AddConnection := (Ovs.AddConnection ipv6String).
Abbreviation reportsOverlap := (reportsOverlap parseIPv6).
Abbreviation reportsFree := (reportsFree parseIPv6).
Abbreviation parses := (parses parseIPv6).

(** ** Gateway selection with an explicit CIDR *)

Lemma slen_nonempty (s : string) : s <> "" -> (slen s =? 0) = false.
Proof.
  destruct s as [| c s]; [congruence |]; intros _.
  unfold slen; simpl String.length. apply Z.eqb_neq. lia.
Qed.

(** C1 (the code departs from it).  An explicit CIDR that parses is stored
    in the named result [gwaddr], but control then leaves the [if] and
    reaches the function's last line, which returns the empty string and
    the error "No available GW address": the CIDR is never returned. *)
Theorem getAvailableGwAddress_explicit_is_lost :
  forall (bridgeIP : string) (parsed : GoNet.IP * IPNet),
    bridgeIP <> "" ->
    ParseCIDR bridgeIP = Some parsed ->
    getAvailableGwAddress bridgeIP = Ret ("", Some "No available GW address").
Proof.
  intros bridgeIP parsed Hne Hparse.
  unfold Ovs.getAvailableGwAddress.
  rewrite (slen_nonempty _ Hne), Hparse. reflexivity.
Qed.

(** Whatever the explicit CIDR is, no call leaves the function and the
    result is an error. *)
Lemma getAvailableGwAddress_explicit_fails :
  forall bridgeIP, bridgeIP <> "" ->
    exists msg, getAvailableGwAddress bridgeIP = Ret ("", Some msg).
Proof.
  intros bridgeIP Hne. unfold Ovs.getAvailableGwAddress.
  rewrite (slen_nonempty _ Hne).
  destruct (ParseCIDR bridgeIP); eexists; reflexivity.
Qed.

(** C5 (the code departs from it).  [CreateBridge "10.1.42.1/16"] stops at
    its first step on every host and from every state of the package
    variables: it returns the "no free range" error, calls nothing, and
    leaves [OvsBridge] as it was, so neither 10.1.42.1 nor 10.1.0.0/16 is
    recorded. *)
Theorem CreateBridge_explicit_10_1_42_1_fails :
  forall (W : Type) (h : Handler W) (w : W) (g : Globals),
    run h (CreateBridge "10.1.42.1/16" g) w
    = (Returned
         (Some ("Could not find a free IP address range for '"
                +++ Bridge.Name (OvsBridge g) +++ "'"), g),
       w, []).
Proof. intros W h w g. reflexivity. Qed.

(** ** Hardware addresses *)

Lemma generateMacAddr_bytes (ip : GoNet.IP) :
  validIPv4 ip -> generateMacAddr ip = 2 :: 66 :: To4 ip.
Proof.
  intros H. unfold generateMacAddr.
  destruct (len4_inv _ H) as (a & b & c & d & E). rewrite E. reflexivity.
Qed.

(** C3.  For a valid IPv4 address the derived hardware address has six
    bytes, bit 0 of the first byte is clear and bit 1 is set, and bytes 2
    to 5 are the four bytes of the address; two valid addresses that differ
    get different hardware addresses. *)
Theorem generateMacAddr_spec :
  (forall ip, validIPv4 ip ->
     len (generateMacAddr ip) = 6
     /\ Z.testbit (nth 0 (generateMacAddr ip) 0) 0 = false
     /\ Z.testbit (nth 0 (generateMacAddr ip) 0) 1 = true
     /\ skipn 2 (generateMacAddr ip) = To4 ip)
  /\ (forall ip1 ip2, validIPv4 ip1 -> validIPv4 ip2 ->
        To4 ip1 <> To4 ip2 -> generateMacAddr ip1 <> generateMacAddr ip2).
Proof.
  split.
  - intros ip H. rewrite (generateMacAddr_bytes _ H).
    destruct (len4_inv _ H) as (a & b & c & d & E). rewrite E.
    repeat split.
  - intros ip1 ip2 H1 H2 Hne Heq.
    rewrite (generateMacAddr_bytes _ H1), (generateMacAddr_bytes _ H2) in Heq.
    injection Heq as Heq. contradiction.
Qed.

(** ** Peer tunnels *)

(** C8.  [AddPeer] and [DeletePeer] name the tunnel port "vxlan-" followed
    by the peer address, and each returns an error exactly when there is no
    session to the switch ([ovs] is nil); with a session each makes its one
    call on that port and returns nil. *)
Theorem peer_port_name_and_errors :
  forall (W : Type) (h : Handler W) (w : W) (peerIp : string) (g : Globals),
    let port := "vxlan-" +++ peerIp in
    let name := Bridge.Name (OvsBridge g) in
    (exists e w' tr,
        run h (AddPeer peerIp g) w = (Returned (e, g), w', tr)
        /\ (isErr e = true <-> ovs g = None)
        /\ map ev_call tr =
           match ovs g with
           | Some c => [addVxlanPort c name port peerIp]
           | None => []
           end)
    /\ (exists e w' tr,
        run h (DeletePeer peerIp g) w = (Returned (e, g), w', tr)
        /\ (isErr e = true <-> ovs g = None)
        /\ map ev_call tr =
           match ovs g with
           | Some c => [deletePort c name port]
           | None => []
           end).
Proof.
  intros W h w peerIp g port name. unfold AddPeer, DeletePeer, mbind, gets.
  simpl. destruct (ovs g) as [c |]; simpl.
  - destruct (h (addVxlanPort c _ _ _) w) as [r1 w1].
    destruct (h (deletePort c _ _) w) as [r2 w2].
    split; do 3 eexists; (split; [reflexivity |]);
      (split; [split; discriminate | reflexivity]).
  - split; do 3 eexists; (split; [reflexivity |]);
      (split; [split; reflexivity | reflexivity]).
Qed.

(** ** Gateway selection from the candidate list *)

Lemma gatewayAddrs_parse : Forall parses gatewayAddrs.
Proof. repeat constructor; eexists; reflexivity. Qed.

(** The loop over any list of well-formed candidates. *)
Lemma gatewayLoop_first_free {W} (h : Handler W) :
  forall addrs, Forall parses addrs ->
  forall w,
    let '(o, _, tr) := run h (gatewayLoop parseIPv6 addrs) w in
    (exists pre addr post trpre e,
        addrs = pre ++ addr :: post
        /\ tr = trpre ++ [e]
        /\ Forall2 reportsOverlap pre trpre
        /\ reportsFree addr e
        /\ o = Returned (inl (addr, None)))
    \/ (Forall2 reportsOverlap addrs tr /\ o = Returned (inr tt)).
Proof.
  induction 1 as [| addr rest [[ip dockerNetwork] Hp] Hrest IH]; intros w.
  - simpl. right. split; [constructor | reflexivity].
  - simpl. rewrite Hp. simpl.
    destruct (h (CheckRouteOverlaps dockerNetwork) w) as [[msg |] w1];
      simpl.
    + specialize (IH w1).
      destruct (run h (gatewayLoop parseIPv6 rest) w1) as [[o w2] tr].
      cbv beta iota in IH |- *.
      assert (Hov : reportsOverlap addr
                      (Ev (CheckRouteOverlaps dockerNetwork) (Some msg)))
        by (exists ip, dockerNetwork, msg; auto).
      destruct IH as [(pre & a & post & trpre & e & E1 & E2 & F & Hf & Ho)
                     | [F Ho]].
      * left. exists (addr :: pre), a, post,
          (Ev (CheckRouteOverlaps dockerNetwork) (Some msg) :: trpre), e.
        subst. repeat split; auto.
      * right. split; [constructor; assumption | assumption].
    + left. exists [], addr, rest, [],
        (Ev (CheckRouteOverlaps dockerNetwork) None).
      repeat split; auto. exists ip, dockerNetwork; auto.
Qed.

(** C2.  Without an explicit CIDR the checker is asked about the
    candidates of [gatewayAddrs] in list order and about nothing else;
    the result is the first candidate for which it reports no overlap
    (every earlier one having been reported as overlapping), and the error
    "No available GW address" when it reports an overlap for all twelve. *)
Theorem getAvailableGwAddress_first_free :
  forall (W : Type) (h : Handler W) (w : W),
    let '(o, _, tr) := run h (getAvailableGwAddress "") w in
    (exists pre addr post trpre e,
        gatewayAddrs = pre ++ addr :: post
        /\ tr = trpre ++ [e]
        /\ Forall2 reportsOverlap pre trpre
        /\ reportsFree addr e
        /\ o = Returned (addr, None))
    \/ (Forall2 reportsOverlap gatewayAddrs tr
        /\ o = Returned ("", Some "No available GW address")).
Proof.
  intros W h w. unfold Ovs.getAvailableGwAddress.
  change (slen "" =? 0) with true. cbv beta iota delta [negb].
  rewrite !run_bind.
  pose proof (gatewayLoop_first_free h _ gatewayAddrs_parse w) as H.
  destruct (run h (gatewayLoop parseIPv6 gatewayAddrs) w) as [[o w1] tr].
  destruct H as [(pre & a & post & trpre & e & E1 & E2 & F & Hf & Ho)
                | [F Ho]]; subst o; simpl; rewrite !app_nil_r.
  - left. exists pre, a, post, trpre, e. auto.
  - right. auto.
Qed.

End Properties.


(** ** Stepping through a run *)

Lemma copy_length (dst src : list Z) :
  List.length (copy dst src) = List.length dst.
Proof.
  revert src; induction dst as [| d dst IH]; intros [| s src]; simpl; auto.
Qed.

Lemma EncodeToString_length (l : list Z) :
  String.length (EncodeToString l) = (2 * List.length l)%nat.
Proof. induction l as [| b l IH]; simpl; [reflexivity | rewrite IH; lia]. Qed.

(** The 64 hex digits of the 32-byte buffer always have a 7-digit prefix:
    the slice in [GenerateRandomName] is in bounds. *)
Lemma randomName_in_bounds (data : list Z) :
  (7 <? 0) || (slen (EncodeToString (filled 32 data)) <? 7) = false.
Proof.
  unfold slen, filled. rewrite EncodeToString_length, copy_length, repeat_length.
  reflexivity.
Qed.

Ltac eff_unfold H :=
  cbv beta iota zeta delta
    [Ovs.AddConnection Ovs.CreateBridge createOvsInternalPort createBridgeIface
     GenerateRandomName setupIPTables rule installRule
     mbind gets modify lift perform ret panic call] in H.

(** One step of a run: name the reply of the next call, or split on the
    next test the program makes. *)
Ltac eff_step H :=
  cbn [bind run isErr fst snd] in H;
  try rewrite randomName_in_bounds in H;
  match type of H with
  | context [match ?h ?c ?w with _ => _ end] =>
      match type of h with
      | Handler _ =>
          first
            [ match goal with E : h c w = _ |- _ => rewrite E in H end
            | let r := fresh "r" in
              let w' := fresh "w" in
              destruct (h c w) as [r w'] eqn:? ]
      end
  | context [let '(_, _) := ?r in _] => is_var r; destruct r
  | context [isErr ?e] => is_var e; destruct e
  | context [if ?b then _ else _] => destruct b eqn:?
  | context [match ?x with Some _ => _ | None => _ end] => destruct x eqn:?
  end.

Ltac eff_cases H :=
  eff_unfold H; repeat eff_step H; cbn [bind run isErr fst snd] in H.

Section Connections.

Variable ipv6String : GoNet.IP -> string.

Abbreviation IP_String := (GoNet.IP_String ipv6String).
Abbreviation IPNet_String := (GoNet.IPNet_String ipv6String).
Abbreviation AddConnection := (Ovs.AddConnection ipv6String).

(** C7.  When [AddConnection] succeeds, the record it returns has as
    gateway the text of [OvsBridge.IP], as address the text of the address
    the allocator handed out, and as hardware address the text of
    [generateMacAddr] of that address; when the allocated address is a
    valid IPv4 address, the last four bytes of that hardware address are
    the four bytes of the address.  The package variables are unchanged. *)
Theorem AddConnection_success_record :
  forall (W : Type) (h : Handler W) (w w' : W) (nspid : Z) (g g' : Globals)
         (conn : OvsConnection.t) (tr : list Event),
    run h (AddConnection nspid g) w = (Returned (conn, None, g'), w', tr) ->
    exists sn ip,
      Bridge.Subnet (OvsBridge g) = Some sn
      /\ In (Ev (Request sn) ip) tr
      /\ OvsConnection.Ip conn = IP_String ip
      /\ OvsConnection.Gateway conn = IP_String (Bridge.IP (OvsBridge g))
      /\ OvsConnection.Mac conn = HardwareAddr_String (generateMacAddr ip)
      /\ (validIPv4 ip -> skipn 2 (generateMacAddr ip) = To4 ip)
      /\ g' = g.
Proof.
  intros W h w w' nspid g g' conn tr H.
  eff_cases H; try discriminate H.
  injection H as <- <- <- <-.
  match goal with
  | Hs : Bridge.Subnet (OvsBridge g) = Some ?sn |- _ => exists sn
  end.
  eexists. split; [reflexivity |].
  split; [simpl; auto 10 |].
  repeat split.
  intros Hv. rewrite (generateMacAddr_bytes _ Hv). reflexivity.
Qed.

(** C10 (as amended).  While [OvsBridge.Subnet] is nil and the bridge name
    is the default one, [AddConnection] always gets past the
    bridge-availability test: its first act is to read random bytes for the
    port name.  If that read fails, or if there is no session to the
    switch, it returns that error; otherwise it creates the port, sleeps,
    and panics on the nil [OvsBridge.Subnet]. *)
Theorem AddConnection_before_bridge :
  forall (W : Type) (h : Handler W) (w : W) (nspid : Z) (g : Globals),
    Bridge.Name (OvsBridge g) = defaultBridgeName ->
    Bridge.Subnet (OvsBridge g) = None ->
    exists data rerr w1 w' tr,
      h (ReadFull 32) w = ((data, rerr), w1)
      /\ run h (AddConnection nspid g) w
         = (match rerr, ovs g with
            | Some msg, _ => Returned (OvsConnection.zero, Some msg, g)
            | None, None =>
                Returned (OvsConnection.zero, Some "OVS not connected", g)
            | None, Some _ => Panicked nilDeref
            end, w', Ev (ReadFull 32) (data, rerr) :: tr)
      /\ map ev_call tr
         = match rerr, ovs g with
           | None, Some c =>
               [ AddInternalPort c defaultBridgeName
                   ("ovs" +++ substring 0 7 (EncodeToString (filled 32 data)));
                 Sleep (Second * 1) ]
           | _, _ => []
           end.
Proof.
  intros W h w nspid g Hname Hsub.
  destruct (run h (AddConnection nspid g) w) as [[o w'] tr] eqn:H.
  eff_cases H;
    try match goal with
        | Hb : String.eqb _ _ = true |- _ =>
            rewrite Hname in Hb; discriminate Hb
        end;
    try congruence;
    rewrite ?Hname in H; injection H as <- <- <-;
    do 5 eexists; (split; [reflexivity |]); split; reflexivity.
Qed.

(** C6.  In every run of [AddConnection], once the interface has been moved
    into the namespace the calls that follow are exactly interface down,
    rename, set address (the allocated one), set hardware address (the one
    derived from it), interface up, default route via [OvsBridge.IP], in
    that order, stopping at the first that fails: its error is returned at
    once, no later step is made and nothing is called to undo the earlier
    ones.  In a run that does not get that far, none of these calls is
    made. *)
Theorem AddConnection_namespace_steps :
  forall (W : Type) (h : Handler W) (w w' : W) (nspid : Z) (g : Globals)
         (o : Outcome (OvsConnection.t * error * Globals)) (tr : list Event),
    run h (AddConnection nspid g) w = (o, w', tr) ->
    match inNamespace tr with
    | Some (portName, post) =>
        exists sn ip conn err,
          In (Ev (Request sn) ip) tr
          /\ o = Returned (conn, err, g)
          /\ stepsRun
               (nsSteps portName (IP_String ip)
                  (HardwareAddr_String (generateMacAddr ip))
                  (IP_String (Bridge.IP (OvsBridge g))))
               post err
    | None => existsb (fun e => nsOnly (ev_call e)) tr = false
    end.
Proof.
  intros W h w w' nspid g o tr H.
  eff_cases H; injection H as <- <- <-; cbn [inNamespace ev_call ev_error];
    try reflexivity;
    do 4 eexists; (split; [simpl; auto 10 |]); (split; [reflexivity |]);
    simpl; auto 20.
Qed.

(** [AddConnection] never writes the package variables. *)
Lemma AddConnection_keeps_globals :
  forall (W : Type) (h : Handler W) (w w' : W) (nspid : Z) (g g' : Globals)
         (res : OvsConnection.t * error) (tr : list Event),
    run h (AddConnection nspid g) w = (Returned (res, g'), w', tr) -> g' = g.
Proof.
  intros W h w w' nspid g g' res tr H.
  eff_cases H; try discriminate H; injection H as <- <- <- <-; reflexivity.
Qed.

End Connections.

(** ** The bridge *)

Lemma run_mbind {W S A B} (h : Handler W) (m : M S A) (f : A -> M S B)
      (s : S) (w : W) :
  run h (mbind m f s) w =
  match run h (m s) w with
  | (Returned (a, s1), w1, tr1) =>
      let '(o, w2, tr2) := run h (f a s1) w1 in (o, w2, tr1 ++ tr2)
  | (Panicked why, w1, tr1) => (Panicked why, w1, tr1)
  end.
Proof.
  unfold mbind. rewrite run_bind.
  destruct (run h (m s) w) as [[[[a s1] | why] w1] tr1]; reflexivity.
Qed.

Lemma firewallRules_app (tr1 tr2 : list Event) :
  firewallRules (tr1 ++ tr2) = firewallRules tr1 ++ firewallRules tr2.
Proof.
  induction tr1 as [| e tr1 IH]; simpl; [reflexivity |].
  destruct (ev_call e); simpl; rewrite IH; reflexivity.
Qed.

Section Bridges.

Variable parseIPv6 : string -> option GoNet.IP.
Variable ipv6String : GoNet.IP -> string.

Abbreviation ParseCIDR := (GoNet.ParseCIDR parseIPv6).
Abbreviation IP_String := (GoNet.IP_String ipv6String).
Abbreviation IPNet_String := (GoNet.IPNet_String ipv6String).
Abbreviation getAvailableGwAddress := (Ovs.getAvailableGwAddress parseIPv6).
Abbreviation CreateBridge := (Ovs.CreateBridge parseIPv6 ipv6String).

(** Gateway selection always returns, and runs no command. *)
Lemma gatewayLoop_quiet {W} (h : Handler W) (addrs : list string) (w : W) :
  exists res w1 tr1,
    run h (gatewayLoop parseIPv6 addrs) w = (Returned res, w1, tr1)
    /\ firewallRules tr1 = [].
Proof.
  revert w; induction addrs as [| addr rest IH]; intros w; simpl.
  - do 3 eexists; split; reflexivity.
  - destruct (ParseCIDR addr) as [[ip dockerNetwork] |]; simpl.
    + destruct (h (CheckRouteOverlaps dockerNetwork) w) as [[msg |] w1]; simpl.
      * destruct (IH w1) as (res & w2 & tr & E & Hq). rewrite E.
        do 3 eexists; split; [reflexivity | exact Hq].
      * do 3 eexists; split; reflexivity.
    + do 3 eexists; split; reflexivity.
Qed.

Lemma getAvailableGwAddress_quiet {W} (h : Handler W) (bridgeIP : string)
      (w : W) :
  exists res w1 tr1,
    run h (getAvailableGwAddress bridgeIP) w = (Returned res, w1, tr1)
    /\ firewallRules tr1 = [].
Proof.
  unfold Ovs.getAvailableGwAddress.
  destruct (negb (slen bridgeIP =? 0)).
  - destruct (ParseCIDR bridgeIP); simpl; do 3 eexists; split; reflexivity.
  - rewrite !run_bind.
    destruct (gatewayLoop_quiet h gatewayAddrs w) as (res & w1 & tr & E & Hq).
    rewrite E. destruct res as [res | []]; simpl; rewrite !app_nil_r;
      do 3 eexists; split; try reflexivity; exact Hq.
Qed.

(** C9 (as amended).  When [CreateBridge] succeeds, exactly three iptables
    commands have been run, in this order: the masquerade rule, the
    forward-accept rule for traffic entering from the bridge, and the
    forward-accept rule for related and established traffic towards it.
    The source selector of the masquerade rule is the text of the resolved
    address [OvsBridge.IP], a single host address; the resolved subnet
    [OvsBridge.Subnet] is set, but is not what the rule is given. *)
Theorem CreateBridge_firewall_rules :
  forall (W : Type) (h : Handler W) (w w' : W) (bridgeIP : string)
         (g g' : Globals) (tr : list Event),
    run h (CreateBridge bridgeIP g) w = (Returned (None, g'), w', tr) ->
    let name := Bridge.Name (OvsBridge g') in
    let address := IP_String (Bridge.IP (OvsBridge g')) in
    firewallRules tr
    = [ ["-t"; "nat"; "-A"; "POSTROUTING"; "-s"; address; "!"; "-o"; name;
         "-j"; "MASQUERADE"];
        ["-A"; "FORWARD"; "-i"; name; "!"; "-o"; name; "-j"; "ACCEPT"];
        ["-A"; "FORWARD"; "-o"; name; "-m"; "conntrack"; "--ctstate";
         "RELATED,ESTABLISHED"; "-j"; "ACCEPT"] ]
    /\ option_map sourceSelector (hd_error (firewallRules tr))
       = Some (Some address)
    /\ (exists sn, Bridge.Subnet (OvsBridge g') = Some sn)
    /\ Bridge.Name (OvsBridge g') = Bridge.Name (OvsBridge g).
Proof.
  intros W h w w' bridgeIP g g' tr H.
  unfold Ovs.CreateBridge in H. rewrite run_mbind, run_lift in H.
  destruct (getAvailableGwAddress_quiet h bridgeIP w)
    as ([ifaceAddr err] & w1 & tr1 & E & Hq).
  rewrite E in H. cbv beta iota in H.
  match type of H with
  | context [@run ?Wt ?At h ?p w1] =>
      destruct (@run Wt At h p w1) as [[o2 w2] tr2] eqn:H2
  end.
  cbv beta iota in H. injection H as -> -> <-.
  eff_cases H2; try discriminate H2; injection H2 as <- <- <-;
    rewrite firewallRules_app, Hq; cbn; repeat split; eexists; reflexivity.
Qed.

(** [CreateBridge] never changes the bridge name nor the session. *)
Lemma CreateBridge_keeps_Name :
  forall (W : Type) (h : Handler W) (w w' : W) (bridgeIP : string)
         (g g' : Globals) (res : error) (tr : list Event),
    run h (CreateBridge bridgeIP g) w = (Returned (res, g'), w', tr) ->
    Bridge.Name (OvsBridge g') = Bridge.Name (OvsBridge g)
    /\ ovs g' = ovs g.
Proof.
  intros W h w w' bridgeIP g g' res tr H.
  unfold Ovs.CreateBridge in H. rewrite run_mbind, run_lift in H.
  destruct (getAvailableGwAddress_quiet h bridgeIP w)
    as ([ifaceAddr err] & w1 & tr1 & E & Hq).
  rewrite E in H. cbv beta iota in H.
  match type of H with
  | context [@run ?Wt ?At h ?p w1] =>
      destruct (@run Wt At h p w1) as [[o2 w2] tr2] eqn:H2
  end.
  cbv beta iota in H. injection H as -> -> <-.
  eff_cases H2; try discriminate H2; injection H2 as <- <- <- <-;
    split; cbn; congruence.
Qed.

(** C4 (as amended).  Let step 1 of [CreateBridge] have selected a
    gateway CIDR [gw], and let the bridge interface exist with the IPv4
    address [b0.b1.b2.b3/ones].  Then whatever [gw] is, the call records
    [b0.b1.b2.b3] as [OvsBridge.IP] and that address's network as
    [OvsBridge.Subnet], and it is this address and network that it hands
    to the kernel: [gw] is not used.  The state is recorded even when a
    later step of the call fails.  When no explicit CIDR is given and
    step 1 selects nothing, the call returns the "no free range" error
    after the route checks alone: the interface is not looked at, whether
    it exists or not, and nothing is recorded. *)
Theorem CreateBridge_existing_interface_wins :
  (forall (W : Type) (h : Handler W) (w w1 w2 w3 : W) (bridgeIP gw : string)
          (g : Globals) (tr1 : list Event) (i : Interface) (e1 : error)
          (a : IPNet) (b0 b1 b2 b3 ones : Z),
      let name := Bridge.Name (OvsBridge g) in
      let ip := IPv4 b0 b1 b2 b3 in
      let subnet := mkIPNet (and_bytes [b0; b1; b2; b3] (CIDRMask ones 32))
                            (CIDRMask ones 32) in
      run h (getAvailableGwAddress bridgeIP) w
      = (Returned (gw, None), w1, tr1) ->
      h (InterfaceByName name) w1 = ((Some i, e1), w2) ->
      h (GetIfaceAddr name) w2 = ((Some a, None), w3) ->
      ifaceAddrIPv4 a b0 b1 b2 b3 ones ->
      exists res g' w' r post,
        run h (CreateBridge bridgeIP g) w
        = (Returned (res, g'), w',
           tr1 ++ Ev (InterfaceByName name) (Some i, e1)
               :: Ev (GetIfaceAddr name) (Some a, None)
               :: Ev (NetworkLinkAddIp (Some i) ip subnet) r
               :: post)
        /\ Bridge.IP (OvsBridge g') = ip
        /\ Bridge.Subnet (OvsBridge g') = Some subnet
        /\ To4 (Bridge.IP (OvsBridge g')) = To4 (net_IP a))
  /\ (forall (W : Type) (h : Handler W) (w w1 : W) (gw msg : string)
             (g : Globals) (tr1 : list Event),
         run h (getAvailableGwAddress "") w
         = (Returned (gw, Some msg), w1, tr1) ->
         run h (CreateBridge "" g) w
         = (Returned
              (Some ("Could not find a free IP address range for '"
                     +++ Bridge.Name (OvsBridge g) +++ "'"), g),
            w1, tr1)).
Proof.
  split.
  - intros W h w w1 w2 w3 bridgeIP gw g tr1 i e1 a b0 b1 b2 b3 ones
           name ip subnet Hgw Hif Haddr Ha.
    subst name.
    pose proof (ParseCIDR_IPNet_String parseIPv6 ipv6String a _ _ _ _ _ Ha)
      as Hrt.
    assert (H4 : To4 ip = To4 (net_IP a))
      by (destruct Ha as (-> & _); reflexivity).
    destruct (run h (CreateBridge bridgeIP g) w) as [[o w'] tr] eqn:H.
    unfold Ovs.CreateBridge in H. rewrite run_mbind, run_lift, Hgw in H.
    cbv beta iota in H.
    match type of H with
    | context [@run ?Wt ?At h ?p w1] =>
        destruct (@run Wt At h p w1) as [[o2 w2'] tr2] eqn:H2
    end.
    cbv beta iota in H. injection H as <- <- <-.
    eff_unfold H2.
    repeat eff_step H2;
      cbn [bind run isErr fst snd] in H2;
      try match goal with
          | Hb : false && _ = true |- _ => discriminate Hb
          end;
      try discriminate Hrt;
      injection Hrt as -> ->;
      injection H2 as <- <- <-;
      do 5 eexists; (split; [reflexivity |]); repeat split; exact H4.
  - intros W h w w1 gw msg g tr1 Hgw.
    unfold Ovs.CreateBridge. rewrite run_mbind, run_lift, Hgw.
    cbn. rewrite app_nil_r. reflexivity.
Qed.

End Bridges.

(* ================================================================== *)
(** * The properties at concrete inputs                                *)
(* ================================================================== *)

(** The explicit CIDR 10.1.42.1/16 parses, and is not returned. *)
Lemma getAvailableGwAddress_explicit_is_lost_witness :
  "10.1.42.1/16" <> ""
  /\ GoNet.ParseCIDR Host.noParseIPv6 "10.1.42.1/16"
     = Some (IPv4 10 1 42 1, mkIPNet [10; 1; 0; 0] [255; 255; 0; 0])
  /\ Ovs.getAvailableGwAddress Host.noParseIPv6 "10.1.42.1/16"
     = Ret ("", Some "No available GW address").
Proof.
  split; [discriminate |]. split; [reflexivity |].
  apply (getAvailableGwAddress_explicit_is_lost Host.noParseIPv6
           "10.1.42.1/16"
           (IPv4 10 1 42 1, mkIPNet [10; 1; 0; 0] [255; 255; 0; 0])).
  - discriminate.
  - reflexivity.
Defined.

(** 10.1.0.2 in its 4-byte form and 10.1.0.3 in its 16-byte form. *)
Lemma generateMacAddr_spec_witness :
  validIPv4 [10; 1; 0; 2] /\ validIPv4 (IPv4 10 1 0 3)
  /\ skipn 2 (generateMacAddr [10; 1; 0; 2]) = To4 [10; 1; 0; 2]
  /\ generateMacAddr [10; 1; 0; 2] <> generateMacAddr (IPv4 10 1 0 3).
Proof.
  split; [reflexivity |]. split; [reflexivity |]. split.
  - apply (proj1 generateMacAddr_spec [10; 1; 0; 2]). reflexivity.
  - apply (proj2 generateMacAddr_spec [10; 1; 0; 2] (IPv4 10 1 0 3)).
    + reflexivity.
    + reflexivity.
    + discriminate.
Defined.

(** The bridge exists at 192.168.7.1/24.  While step 1 selects
    10.1.42.1/16, 192.168.7.1 and 192.168.7.0/24 are recorded; while every
    candidate overlaps a route, the call fails after the twelve checks. *)
Lemma CreateBridge_existing_interface_wins_witness :
  run Host.host (Ovs.getAvailableGwAddress Host.noParseIPv6 "") Host.withBridge
  = (Returned ("10.1.42.1/16", None), Host.withBridge,
     [Ev (CheckRouteOverlaps (mkIPNet [10; 1; 0; 0] [255; 255; 0; 0])) None])
  /\ ifaceAddrIPv4 (mkIPNet [192; 168; 7; 1] [255; 255; 255; 0])
       192 168 7 1 24
  /\ (exists res g' w' tr,
       run Host.host
         (Ovs.CreateBridge Host.noParseIPv6 Host.noIPv6String ""
            Host.connected)
         Host.withBridge
       = (Returned (res, g'), w', tr)
       /\ Bridge.IP (OvsBridge g') = IPv4 192 168 7 1
       /\ Bridge.Subnet (OvsBridge g')
          = Some (mkIPNet [192; 168; 7; 0] [255; 255; 255; 0]))
  /\ fst (run Host.host (Ovs.getAvailableGwAddress Host.noParseIPv6 "")
            Scenario.allBusyWithBridge)
     = (Returned ("", Some "No available GW address"),
        Scenario.allBusyWithBridge)
  /\ run Host.host
       (Ovs.CreateBridge Host.noParseIPv6 Host.noIPv6String ""
          Host.connected)
       Scenario.allBusyWithBridge
     = (Returned
          (Some "Could not find a free IP address range for 'docker0-ovs'",
           Host.connected),
        Scenario.allBusyWithBridge,
        snd (run Host.host (Ovs.getAvailableGwAddress Host.noParseIPv6 "")
               Scenario.allBusyWithBridge)).
Proof.
  assert (Ha : ifaceAddrIPv4 (mkIPNet [192; 168; 7; 1] [255; 255; 255; 0])
                 192 168 7 1 24).
  { split; [reflexivity |]. split; [repeat constructor; lia |].
    split; [lia | reflexivity]. }
  split; [reflexivity |]. split; [exact Ha |]. split; [| split].
  - destruct (proj1 (CreateBridge_existing_interface_wins
                       Host.noParseIPv6 Host.noIPv6String)
                Host.World Host.host
                Host.withBridge Host.withBridge Host.withBridge
                Host.withBridge
                "" "10.1.42.1/16" Host.connected
                [Ev (CheckRouteOverlaps
                       (mkIPNet [10; 1; 0; 0] [255; 255; 0; 0])) None]
                (mkInterface 7 "docker0-ovs") None
                (mkIPNet [192; 168; 7; 1] [255; 255; 255; 0])
                192 168 7 1 24
                eq_refl eq_refl eq_refl Ha)
      as (res & g' & w' & r & post & Hrun & Hip & Hsub & _).
    exists res, g', w'. eexists. split; [exact Hrun |]. split; assumption.
  - reflexivity.
  - apply (proj2 (CreateBridge_existing_interface_wins
                    Host.noParseIPv6 Host.noIPv6String)
             Host.World Host.host
             Scenario.allBusyWithBridge Scenario.allBusyWithBridge
             "" "No available GW address" Host.connected).
    reflexivity.
Defined.

(** C4 as stated fails: the bridge interface exists with the address
    192.168.7.1/24, every candidate overlaps a route, and the call
    returns an error without looking the interface up; neither address
    nor subnet is recorded. *)
Lemma CreateBridge_existing_interface_not_consulted :
  let r := run Host.host
             (Ovs.CreateBridge Host.noParseIPv6 Host.noIPv6String ""
                Host.connected) Scenario.allBusyWithBridge in
  fst (Host.host (InterfaceByName "docker0-ovs") Scenario.allBusyWithBridge)
  = (Some (mkInterface 7 "docker0-ovs"), None)
  /\ fst (Host.host (GetIfaceAddr "docker0-ovs") Scenario.allBusyWithBridge)
     = (Some (mkIPNet [192; 168; 7; 1] [255; 255; 255; 0]), None)
  /\ exists g',
       fst (fst r)
       = Returned
           (Some "Could not find a free IP address range for 'docker0-ovs'",
            g')
       /\ Bridge.IP (OvsBridge g') = []
       /\ Bridge.Subnet (OvsBridge g') = None
       /\ To4 (Bridge.IP (OvsBridge g')) <> [192; 168; 7; 1]
       /\ firstLookup (snd r) = None
       /\ List.length (snd r) = 12%nat.
Proof.
  intros r. split; [reflexivity |]. split; [reflexivity |].
  exists Host.connected. vm_compute. repeat split. discriminate.
Defined.

(** Assigning the address fails: down and rename have been made, nothing
    follows the failed call, and its error is the result. *)
Lemma AddConnection_namespace_steps_witness :
  let r := run Host.host
             (Ovs.AddConnection Host.noIPv6String 4242 Host.bridged)
             Host.noSetIp in
  inNamespace (snd r)
  = Some ("ovsabababa",
          [ Ev (InterfaceDown "ovsabababa") None;
            Ev (ChangeInterfaceName "ovsabababa" "ovsabababa") None;
            Ev (SetInterfaceIp "ovsabababa" "10.1.0.2")
               (Some "operation not permitted") ])
  /\ match inNamespace (snd r) with
     | Some (portName, post) =>
         exists sn ip conn err,
           In (Ev (Request sn) ip) (snd r)
           /\ fst (fst r) = Returned (conn, err, Host.bridged)
           /\ stepsRun
                (nsSteps portName (GoNet.IP_String Host.noIPv6String ip)
                   (HardwareAddr_String (generateMacAddr ip))
                   (GoNet.IP_String Host.noIPv6String
                      (Bridge.IP (OvsBridge Host.bridged))))
                post err
     | None => existsb (fun e => nsOnly (ev_call e)) (snd r) = false
     end.
Proof.
  intros r. split; [reflexivity |].
  apply (AddConnection_namespace_steps Host.noIPv6String
           Host.World Host.host Host.noSetIp (snd (fst r)) 4242 Host.bridged
           (fst (fst r)) (snd r)).
  reflexivity.
Defined.

(** One successful attachment on a fresh host with the bridge at
    10.1.42.1/16. *)
Lemma AddConnection_success_record_witness :
  exists conn w' tr sn ip,
    run Host.host (Ovs.AddConnection Host.noIPv6String 4242 Host.bridged)
      Host.fresh
    = (Returned (conn, None, Host.bridged), w', tr)
    /\ Bridge.Subnet (OvsBridge Host.bridged) = Some sn
    /\ In (Ev (Request sn) ip) tr
    /\ OvsConnection.Gateway conn
       = GoNet.IP_String Host.noIPv6String (Bridge.IP (OvsBridge Host.bridged))
    /\ OvsConnection.Mac conn = HardwareAddr_String (generateMacAddr ip)
    /\ (validIPv4 ip -> skipn 2 (generateMacAddr ip) = To4 ip).
Proof.
  destruct (run Host.host
              (Ovs.AddConnection Host.noIPv6String 4242 Host.bridged)
              Host.fresh) as [[o w'] tr] eqn:Hrun.
  vm_compute in Hrun. injection Hrun as <- <- <-.
  do 3 eexists.
  destruct (AddConnection_success_record Host.noIPv6String
              Host.World Host.host Host.fresh _ 4242 Host.bridged _ _ _
              eq_refl)
    as (sn & ip & Hsn & Hin & _ & Hgw & Hmac & Hlast & _).
  exists sn, ip. split; [reflexivity |]. repeat split; assumption.
Defined.

(** Before any bridge is resolved, with a session to the switch: the port
    is created, then the call panics. *)
Lemma AddConnection_before_bridge_witness :
  Bridge.Name (OvsBridge Host.connected) = defaultBridgeName
  /\ Bridge.Subnet (OvsBridge Host.connected) = None
  /\ exists w' tr,
       run Host.host (Ovs.AddConnection Host.noIPv6String 4242 Host.connected)
         Host.fresh
       = (Panicked nilDeref, w', tr)
       /\ map ev_call tr
          = [ ReadFull 32;
              AddInternalPort 1 defaultBridgeName "ovsabababa";
              Sleep 1000000000 ].
Proof.
  split; [reflexivity |]. split; [reflexivity |].
  destruct (AddConnection_before_bridge Host.noIPv6String
              Host.World Host.host Host.fresh 4242 Host.connected
              eq_refl eq_refl)
    as (data & rerr & w1 & w' & tr & Hread & Hrun & Hcalls).
  vm_compute in Hread. injection Hread as <- <- <-.
  exists w'. eexists. split; [exact Hrun |].
  cbn [map ev_call]. rewrite Hcalls. reflexivity.
Defined.

(** C10 as stated fails: with no session to the switch, the call made
    while [OvsBridge.Subnet] is nil returns an error and does not reach
    the dereference. *)
Lemma AddConnection_before_bridge_returns_error :
  Bridge.Subnet (OvsBridge globals0) = None
  /\ fst (fst (run Host.host
                 (Ovs.AddConnection Host.noIPv6String 4242 globals0)
                 Host.fresh))
     = Returned (OvsConnection.zero, Some "OVS not connected", globals0)
  /\ fst (fst (run Host.host
                 (Ovs.AddConnection Host.noIPv6String 4242 globals0)
                 Host.fresh))
     <> Panicked nilDeref.
Proof. split; [reflexivity |]. split; [reflexivity | discriminate]. Defined.

(** A bridge created on a fresh host from the candidate list. *)
Lemma CreateBridge_firewall_rules_witness :
  exists w' tr,
    run Host.host
      (Ovs.CreateBridge Host.noParseIPv6 Host.noIPv6String "" Host.connected)
      Host.fresh
    = (Returned (None, Host.bridged), w', tr)
    /\ firewallRules tr
       = [ ["-t"; "nat"; "-A"; "POSTROUTING"; "-s"; "10.1.42.1"; "!"; "-o";
            "docker0-ovs"; "-j"; "MASQUERADE"];
           ["-A"; "FORWARD"; "-i"; "docker0-ovs"; "!"; "-o"; "docker0-ovs";
            "-j"; "ACCEPT"];
           ["-A"; "FORWARD"; "-o"; "docker0-ovs"; "-m"; "conntrack";
            "--ctstate"; "RELATED,ESTABLISHED"; "-j"; "ACCEPT"] ].
Proof.
  destruct (run Host.host
              (Ovs.CreateBridge Host.noParseIPv6 Host.noIPv6String ""
                 Host.connected) Host.fresh) as [[o w'] tr] eqn:Hrun.
  vm_compute in Hrun. injection Hrun as <- <- <-.
  do 2 eexists. split; [reflexivity |].
  exact (proj1 (CreateBridge_firewall_rules Host.noParseIPv6
                  Host.noIPv6String Host.World Host.host Host.fresh _ ""
                  Host.connected Host.bridged _ eq_refl)).
Defined.

(** C9 as stated fails: in that run the resolved subnet is 10.1.0.0/16 and
    the masquerade rule selects the source 10.1.42.1. *)
Lemma CreateBridge_masquerade_source_is_not_subnet :
  let r := run Host.host
             (Ovs.CreateBridge Host.noParseIPv6 Host.noIPv6String ""
                Host.connected) Host.fresh in
  exists g' sn,
    fst (fst r) = Returned (None, g')
    /\ Bridge.Subnet (OvsBridge g') = Some sn
    /\ GoNet.IPNet_String Host.noIPv6String sn = "10.1.0.0/16"
    /\ option_map sourceSelector (hd_error (firewallRules (snd r)))
       = Some (Some "10.1.42.1")
    /\ option_map sourceSelector (hd_error (firewallRules (snd r)))
       <> Some (Some (GoNet.IPNet_String Host.noIPv6String sn)).
Proof.
  exists Host.bridged, (mkIPNet [10; 1; 0; 0] [255; 255; 0; 0]).
  vm_compute. repeat split. discriminate.
Defined.

(* ================================================================== *)
(** * Further properties of bridge.go                                  *)
(* ================================================================== *)

Lemma existsb_app_events (p : Event -> bool) (tr1 tr2 : list Event) :
  existsb p (tr1 ++ tr2) = existsb p tr1 || existsb p tr2.
Proof. apply existsb_app. Qed.

Lemma only_checks_no (p : Call -> bool) (tr : list Event) :
  (forall c, isCheck c = true -> p c = false) ->
  forallb (fun e => isCheck (ev_call e)) tr = true ->
  existsb (fun e => p (ev_call e)) tr = false.
Proof.
  intros Hp. induction tr as [| e tr IH]; simpl; [reflexivity |].
  intros H. apply andb_true_iff in H as [He Htr].
  rewrite (Hp _ He), (IH Htr). reflexivity.
Qed.

Section Further.

Variable parseIPv6 : string -> option GoNet.IP.
Variable ipv6String : GoNet.IP -> string.

Abbreviation ParseCIDR := (GoNet.ParseCIDR parseIPv6).
Abbreviation IP_String := (GoNet.IP_String ipv6String).
Abbreviation IPNet_String := (GoNet.IPNet_String ipv6String).
Abbreviation getAvailableGwAddress := (Ovs.getAvailableGwAddress parseIPv6).
Abbreviation CreateBridge := (Ovs.CreateBridge parseIPv6 ipv6String).
Abbreviation AddConnection := (Ovs.AddConnection ipv6String).

(** ** Gateway selection *)

Lemma gatewayLoop_only_checks {W} (h : Handler W) (addrs : list string) (w : W) :
  forallb (fun e => isCheck (ev_call e))
    (snd (run h (gatewayLoop parseIPv6 addrs) w)) = true.
Proof.
  revert w; induction addrs as [| addr rest IH]; intros w; simpl.
  - reflexivity.
  - destruct (ParseCIDR addr) as [[ip dockerNetwork] |]; simpl; [| reflexivity].
    destruct (h (CheckRouteOverlaps dockerNetwork) w) as [[msg |] w1]; simpl.
    + specialize (IH w1).
      destruct (run h (gatewayLoop parseIPv6 rest) w1) as [[o w2] tr].
      simpl in *. exact IH.
    + reflexivity.
Qed.

(** The only calls of gateway selection are to the route checker. *)
Lemma getAvailableGwAddress_only_checks {W} (h : Handler W)
      (bridgeIP : string) (w : W) :
  forallb (fun e => isCheck (ev_call e))
    (snd (run h (getAvailableGwAddress bridgeIP) w)) = true.
Proof.
  unfold Ovs.getAvailableGwAddress.
  destruct (negb (slen bridgeIP =? 0)).
  - destruct (ParseCIDR bridgeIP); reflexivity.
  - rewrite !run_bind.
    pose proof (gatewayLoop_only_checks h gatewayAddrs w) as H.
    destruct (run h (gatewayLoop parseIPv6 gatewayAddrs) w)
      as [[[[res | []] | why] w1] tr]; simpl in *; rewrite ?app_nil_r; exact H.
Qed.

(** X1.  An explicit CIDR that does not parse is answered with the empty
    string and the parse error naming the input, without any call. *)
Theorem getAvailableGwAddress_malformed :
  forall bridgeIP,
    bridgeIP <> "" ->
    ParseCIDR bridgeIP = None ->
    getAvailableGwAddress bridgeIP
    = Ret ("", Some ("invalid CIDR address: " +++ bridgeIP)).
Proof.
  intros bridgeIP Hne Hparse. unfold Ovs.getAvailableGwAddress.
  rewrite (slen_nonempty _ Hne), Hparse. reflexivity.
Qed.

(** A selected gateway comes from the candidate list. *)
Lemma selected_gateway_is_candidate :
  forall (W : Type) (h : Handler W) (w w1 : W) (bridgeIP gw : string)
         (tr : list Event),
    run h (getAvailableGwAddress bridgeIP) w = (Returned (gw, None), w1, tr) ->
    In gw gatewayAddrs.
Proof.
  intros W h w w1 bridgeIP gw tr H.
  destruct bridgeIP as [| c s].
  - unfold Ovs.getAvailableGwAddress in H.
    change (slen "" =? 0) with true in H. cbv beta iota delta [negb] in H.
    rewrite !run_bind in H.
    pose proof (gatewayLoop_first_free parseIPv6 h _
                  (gatewayAddrs_parse parseIPv6) w) as L.
    destruct (run h (gatewayLoop parseIPv6 gatewayAddrs) w) as [[o w2] tr2].
    destruct L as [(pre & a & post & trpre & e & E1 & E2 & F & Hf & Ho)
                  | [F Ho]]; subst o; simpl in H.
    + injection H as <- _ _. rewrite E1. apply in_elt.
    + discriminate H.
  - destruct (getAvailableGwAddress_explicit_fails parseIPv6 (String c s))
      as [msg E]; [discriminate |].
    rewrite E in H. discriminate H.
Qed.

(** X2.  A gateway that is returned without error is one of the twelve
    candidates of [gatewayAddrs], and no explicit CIDR was given: no other
    string is ever selected. *)
Theorem getAvailableGwAddress_selects_candidate :
  forall (W : Type) (h : Handler W) (w w1 : W) (bridgeIP gw : string)
         (tr : list Event),
    run h (getAvailableGwAddress bridgeIP) w = (Returned (gw, None), w1, tr) ->
    In gw gatewayAddrs /\ bridgeIP = "".
Proof.
  intros W h w w1 bridgeIP gw tr H. split.
  - exact (selected_gateway_is_candidate W h w w1 bridgeIP gw tr H).
  - destruct bridgeIP as [| c s]; [reflexivity |].
    destruct (getAvailableGwAddress_explicit_fails parseIPv6 (String c s))
      as [msg E]; [discriminate |].
    rewrite E in H. discriminate H.
Qed.

(** X3.  [CreateBridge] with any non-empty argument fails at its first
    step whatever the host: it returns the "no free range" error, makes
    no call and leaves the package variables as they were. *)
Theorem CreateBridge_explicit_never_works :
  forall (W : Type) (h : Handler W) (w : W) (bridgeIP : string) (g : Globals),
    bridgeIP <> "" ->
    run h (CreateBridge bridgeIP g) w
    = (Returned
         (Some ("Could not find a free IP address range for '"
                +++ Bridge.Name (OvsBridge g) +++ "'"), g),
       w, []).
Proof.
  intros W h w bridgeIP g Hne.
  destruct (getAvailableGwAddress_explicit_fails parseIPv6 bridgeIP Hne)
    as [msg E].
  unfold Ovs.CreateBridge. rewrite run_mbind, run_lift, E. reflexivity.
Qed.

End Further.

(** ** The bridge, beyond the claims *)

Lemma firstLookup_skip_checks (tr1 tr2 : list Event) :
  forallb (fun e => isCheck (ev_call e)) tr1 = true ->
  firstLookup (tr1 ++ tr2) = firstLookup tr2.
Proof.
  induction tr1 as [| [c r] tr1 IH]; simpl; [reflexivity |].
  intros H. apply andb_true_iff in H as [He Htr].
  destruct c; try discriminate He. simpl. apply IH, Htr.
Qed.

Lemma afterAddIp_skip_checks (tr1 tr2 : list Event) :
  forallb (fun e => isCheck (ev_call e)) tr1 = true ->
  afterAddIp (tr1 ++ tr2) = afterAddIp tr2.
Proof.
  induction tr1 as [| [c r] tr1 IH]; simpl; [reflexivity |].
  intros H. apply andb_true_iff in H as [He Htr].
  destruct c; try discriminate He. simpl. apply IH, Htr.
Qed.

(** Splits a run of [CreateBridge] into gateway selection, with trace
    [tr1] of route checks only, and the rest of the function, [H2]. *)
Ltac bridge_split pv6 h bridgeIP w H :=
  unfold Ovs.CreateBridge in H; rewrite run_mbind, run_lift in H;
  let Hc := fresh "Hc" in
  pose proof (getAvailableGwAddress_only_checks pv6 h bridgeIP w) as Hc;
  let ifaceAddr := fresh "ifaceAddr" in
  let err := fresh "err" in
  let w1 := fresh "w1" in
  let tr1 := fresh "tr1" in
  let E := fresh "E" in
  let Hq := fresh "Hq" in
  destruct (getAvailableGwAddress_quiet pv6 h bridgeIP w)
    as ([ifaceAddr err] & w1 & tr1 & E & Hq);
  rewrite E in H, Hc; cbv beta iota in H; cbn [snd] in Hc;
  match type of H with
  | context [@run ?Wt ?At h ?p w1] =>
      let o2 := fresh "o2" in
      let w2 := fresh "w2" in
      let tr2 := fresh "tr2" in
      let H2 := fresh "H2" in
      destruct (@run Wt At h p w1) as [[o2 w2] tr2] eqn:H2;
      cbv beta iota in H
  end.

(** As [eff_step], but a test whose outcome is a hypothesis is not split. *)
Ltac eff_step_known H :=
  cbn [bind run isErr fst snd andb] in H;
  first
    [ match type of H with
      | context [match ?x with Some _ => _ | None => _ end] =>
          match goal with E : x = _ |- _ => rewrite E in H end
      end
    | eff_step H ].

Ltac eff_cases_known H :=
  eff_unfold H; repeat eff_step_known H; cbn [bind run isErr fst snd] in H.

Section FurtherBridge.

Variable parseIPv6 : string -> option GoNet.IP.
Variable ipv6String : GoNet.IP -> string.

Abbreviation ParseCIDR := (GoNet.ParseCIDR parseIPv6).
Abbreviation IP_String := (GoNet.IP_String ipv6String).
Abbreviation getAvailableGwAddress := (Ovs.getAvailableGwAddress parseIPv6).
Abbreviation CreateBridge := (Ovs.CreateBridge parseIPv6 ipv6String).

(** X4.  [CreateBridge] never looks at the result of
    [netlink.NetworkLinkAddIp]: in every run, whatever that call replied,
    the next call is [netlink.NetworkLinkUp] on the same interface. *)
Theorem CreateBridge_ignores_address_error :
  forall (W : Type) (h : Handler W) (w w' : W) (bridgeIP : string)
         (g : Globals) (o : Outcome (error * Globals)) (tr : list Event),
    run h (CreateBridge bridgeIP g) w = (o, w', tr) ->
    match afterAddIp tr with
    | Some (iface, rest) =>
        exists r post, rest = Ev (NetworkLinkUp iface) r :: post
    | None => existsb (fun e => isAddIp (ev_call e)) tr = false
    end.
Proof.
  intros W h w w' bridgeIP g o tr H.
  bridge_split parseIPv6 h bridgeIP w H. injection H as <- <- <-.
  rewrite (afterAddIp_skip_checks _ _ Hc), existsb_app.
  rewrite (only_checks_no isAddIp tr1) by (auto; intros [] ?; auto; discriminate).
  eff_cases H2; injection H2 as <- <- <-; cbn [afterAddIp ev_call];
    try reflexivity; do 2 eexists; reflexivity.
Qed.

(** X5.  The state [CreateBridge] leaves behind: either the package
    variables are untouched and no address was handed to the kernel, or
    [OvsBridge.IP] and [OvsBridge.Subnet] are exactly the address and
    network that were handed to [netlink.NetworkLinkAddIp] (the name and
    the session are kept).  That holds for failed calls as well: the state
    is written before the interface is configured. *)
Theorem CreateBridge_recorded_state :
  forall (W : Type) (h : Handler W) (w w' : W) (bridgeIP : string)
         (g g' : Globals) (res : error) (tr : list Event),
    run h (CreateBridge bridgeIP g) w = (Returned (res, g'), w', tr) ->
    (g' = g /\ existsb (fun e => isAddIp (ev_call e)) tr = false)
    \/ (exists iface ip n r,
          In (Ev (NetworkLinkAddIp iface ip n) r) tr
          /\ g' = set_resolved ip n g).
Proof.
  intros W h w w' bridgeIP g g' res tr H.
  bridge_split parseIPv6 h bridgeIP w H. injection H as -> <- <-.
  assert (Hno : existsb (fun e => isAddIp (ev_call e)) tr1 = false)
    by (apply only_checks_no; auto; intros [] ?; auto; discriminate).
  eff_cases H2; try discriminate H2; injection H2 as <- <- <- <-;
    first
      [ left; split; [reflexivity |];
        rewrite existsb_app, Hno; reflexivity
      | right; do 4 eexists; split; [| reflexivity];
        apply in_or_app; right; simpl; auto 10 ].
Qed.

(** X6.  When the first lookup of the bridge interface finds it (it
    returns an interface, or no error), [CreateBridge] neither asks the
    switch to create the bridge nor sleeps. *)
Theorem CreateBridge_existing_not_created :
  forall (W : Type) (h : Handler W) (w w' : W) (bridgeIP : string)
         (g : Globals) (o : Outcome (error * Globals)) (tr : list Event)
         (iface : option Interface) (e : error),
    run h (CreateBridge bridgeIP g) w = (o, w', tr) ->
    firstLookup tr = Some (iface, e) ->
    iface <> None \/ e = None ->
    existsb (fun ev => createsBridge (ev_call ev)) tr = false.
Proof.
  intros W h w w' bridgeIP g o tr iface e H Hfirst Hex.
  bridge_split parseIPv6 h bridgeIP w H. injection H as <- <- <-.
  rewrite (firstLookup_skip_checks _ _ Hc) in Hfirst.
  rewrite existsb_app.
  rewrite (only_checks_no createsBridge tr1)
    by (auto; intros [] ?; auto; discriminate).
  eff_cases H2; injection H2 as <- <- <-; cbn in Hfirst |- *;
    try reflexivity; try discriminate Hfirst;
    injection Hfirst as Hi He; subst iface e;
    try match goal with
        | Hb : false && _ = true |- _ => discriminate Hb
        | Hb : _ && false = true |- _ =>
            rewrite andb_false_r in Hb; discriminate Hb
        end;
    destruct Hex as [Hex | Hex]; try congruence;
    match goal with
    | Hb : match ?i with Some _ => false | None => true end && _ = true
      |- _ => destruct i; [discriminate Hb | congruence]
    end.
Qed.

(** X7.  When the lookup fails and there is no session to the switch,
    [CreateBridge] gives up with "OVS not connected": nothing is created,
    no address is recorded, and the only calls were the route checks and
    the lookup. *)
Theorem CreateBridge_no_interface_no_session :
  forall (W : Type) (h : Handler W) (w w1 w2 : W) (bridgeIP gw : string)
         (g : Globals) (tr1 : list Event) (msg : string),
    let name := Bridge.Name (OvsBridge g) in
    run h (getAvailableGwAddress bridgeIP) w = (Returned (gw, None), w1, tr1) ->
    h (InterfaceByName name) w1 = ((None, Some msg), w2) ->
    ovs g = None ->
    run h (CreateBridge bridgeIP g) w
    = (Returned (Some "OVS not connected", g), w2,
       tr1 ++ [Ev (InterfaceByName name) (None, Some msg)]).
Proof.
  intros W h w w1 w2 bridgeIP gw g tr1 msg name Hgw Hif Hovs. subst name.
  destruct (run h (CreateBridge bridgeIP g) w) as [[o w'] tr] eqn:H.
  unfold Ovs.CreateBridge in H. rewrite run_mbind, run_lift, Hgw in H.
  cbv beta iota in H.
  match type of H with
  | context [@run ?Wt ?At h ?p w1] =>
      destruct (@run Wt At h p w1) as [[o2 w2'] tr2] eqn:H2
  end.
  cbv beta iota in H. injection H as <- <- <-.
  eff_cases_known H2; try congruence;
    try match goal with
        | Hb : true && true = false |- _ => discriminate Hb
        end.
  injection H2 as <- <- <-. reflexivity.
Qed.

(** X8.  When the lookup fails and there is a session, [CreateBridge]
    asks the switch for the bridge, sleeps one second, looks the interface
    up again and, if it is found, records the address and network of the
    candidate that gateway selection returned and hands exactly these to
    the kernel. *)
Theorem CreateBridge_new_interface_gets_candidate :
  forall (W : Type) (h : Handler W) (w w1 w2 w3 w4 w5 : W)
         (bridgeIP gw : string) (g : Globals) (tr1 : list Event)
         (msg : string) (c : OvsdbClient) (iface : option Interface),
    let name := Bridge.Name (OvsBridge g) in
    run h (getAvailableGwAddress bridgeIP) w = (Returned (gw, None), w1, tr1) ->
    h (InterfaceByName name) w1 = ((None, Some msg), w2) ->
    ovs g = Some c ->
    h (CreateOVSBridge c name) w2 = (tt, w3) ->
    h (Sleep (Second * 1)) w3 = (tt, w4) ->
    h (InterfaceByName name) w4 = ((iface, None), w5) ->
    exists ip n res w' r post,
      ParseCIDR gw = Some (ip, n)
      /\ In gw gatewayAddrs
      /\ run h (CreateBridge bridgeIP g) w
         = (Returned (res, set_resolved ip n g), w',
            tr1 ++ Ev (InterfaceByName name) (None, Some msg)
                :: Ev (CreateOVSBridge c name) tt
                :: Ev (Sleep (Second * 1)) tt
                :: Ev (InterfaceByName name) (iface, None)
                :: Ev (NetworkLinkAddIp iface ip n) r
                :: post).
Proof.
  intros W h w w1 w2 w3 w4 w5 bridgeIP gw g tr1 msg c iface name
         Hgw Hif Hovs Hcreate Hsleep Hif2. subst name.
  pose proof (selected_gateway_is_candidate _ _ _ _ _ _ _ _ Hgw) as Hin.
  pose proof (gatewayAddrs_parse parseIPv6) as Hall.
  rewrite Forall_forall in Hall. destruct (Hall _ Hin) as [[ip n] Hp].
  exists ip, n.
  destruct (run h (CreateBridge bridgeIP g) w) as [[o w'] tr] eqn:H.
  unfold Ovs.CreateBridge in H. rewrite run_mbind, run_lift, Hgw in H.
  cbv beta iota in H.
  match type of H with
  | context [@run ?Wt ?At h ?p w1] =>
      destruct (@run Wt At h p w1) as [[o2 w2'] tr2] eqn:H2
  end.
  cbv beta iota in H. injection H as <- <- <-.
  eff_cases_known H2; try congruence;
    try match goal with
        | Hb : true && true = false |- _ => discriminate Hb
        end;
    injection H2 as <- <- <-;
    do 4 eexists; (split; [exact Hp |]); (split; [exact Hin | reflexivity]).
Qed.

End FurtherBridge.

(** ** Firewall rules *)

Section FurtherFirewall.

(** X9.  [setupIPTables] never panics; the commands it runs are the first
    k of its three rules, in order, for some k; and it returns nil exactly
    when all three ran, each exiting with success and printing nothing. *)
Theorem setupIPTables_runs_a_prefix :
  forall (W : Type) (h : Handler W) (w : W) (bridgeName bridgeIP : string),
    let '(o, _, tr) := run h (setupIPTables bridgeName bridgeIP) w in
    exists res,
      o = Returned res
      /\ (exists k, firewallRules tr = firstn k (allRules bridgeName bridgeIP))
      /\ (res = None <->
          List.length (firewallRules tr) = 3%nat
          /\ forallb cleanRun tr = true).
Proof.
  intros W h w bridgeName bridgeIP.
  destruct (run h (setupIPTables bridgeName bridgeIP) w) as [[o w'] tr] eqn:H.
  eff_cases H; injection H as <- <- <-; eexists; (split; [reflexivity |]);
    repeat match goal with
           | Hb : negb _ = true |- _ => apply negb_true_iff in Hb
           | Hb : negb _ = false |- _ => apply negb_false_iff in Hb
           end;
    (split;
     [ first [ exists 0%nat; reflexivity | exists 1%nat; reflexivity
             | exists 2%nat; reflexivity | exists 3%nat; reflexivity ]
     | cbn [firewallRules ev_call List.length forallb cleanRun ev_output
              isErr negb andb];
       split;
       [ intros E; try discriminate E;
         (split; [reflexivity |]);
         repeat match goal with
                | Hb : (_ =? _) = true |- _ => rewrite Hb; clear Hb
                end; reflexivity
       | intros [El Ec]; try discriminate El; try reflexivity;
         repeat match goal with
                | Hb : (_ =? _) = true |- _ => rewrite Hb in Ec; clear Hb
                | Hb : (_ =? _) = false |- _ => rewrite Hb in Ec; clear Hb
                end;
         repeat (progress (rewrite ?andb_false_r in Ec; cbn in Ec));
         discriminate Ec ] ]).
Qed.

(** X10.  When the iptables executable is not found, [setupIPTables]
    stops there: the failed search is the last thing it does, and its
    result is "Unable to enable network bridge NAT: iptables not found",
    whatever the search itself reported. *)
Theorem setupIPTables_without_iptables :
  forall (W : Type) (h : Handler W) (w w' : W) (bridgeName bridgeIP : string)
         (o : Outcome error) (tr : list Event),
    run h (setupIPTables bridgeName bridgeIP) w = (o, w', tr) ->
    existsb lookPathFailed tr = true ->
    o = Returned (Some "Unable to enable network bridge NAT: iptables not found")
    /\ match rev tr with
       | e :: _ => lookPathFailed e = true
       | [] => False
       end.
Proof.
  intros W h w w' bridgeName bridgeIP o tr H Hf.
  eff_cases H; injection H as <- <- <-; cbn in Hf |- *;
    try discriminate Hf; split; reflexivity.
Qed.

End FurtherFirewall.

(** ** Random port names *)

Lemma filled_32_length (data : list Z) : List.length (filled 32 data) = 32%nat.
Proof. unfold filled. rewrite copy_length, repeat_length. reflexivity. Qed.

Lemma substring_prefix_length (n : nat) (s : string) :
  (n <= String.length s)%nat -> String.length (substring 0 n s) = n.
Proof.
  revert s; induction n as [| n IH]; intros s H.
  - destruct s; reflexivity.
  - destruct s as [| c s]; simpl in H; [lia |].
    simpl. rewrite IH by lia. reflexivity.
Qed.

Lemma allChars_substring_prefix (p : ascii -> bool) (n : nat) (s : string) :
  allChars p s = true -> allChars p (substring 0 n s) = true.
Proof.
  revert s; induction n as [| n IH]; intros s H.
  - destruct s; reflexivity.
  - destruct s as [| c s]; [reflexivity |].
    simpl in H |- *. apply andb_true_iff in H as [Hc Hs].
    rewrite Hc, (IH _ Hs). reflexivity.
Qed.

Lemma hexOK_bytes : forallb (fun n => hexOK (Z.of_nat n)) (seq 0 256) = true.
Proof. vm_compute. reflexivity. Qed.

Lemma hexOK_byte (b : Z) : 0 <= b < 256 -> hexOK b = true.
Proof.
  intros Hb. pose proof hexOK_bytes as H. rewrite forallb_forall in H.
  specialize (H (Z.to_nat b)). rewrite Z2Nat.id in H by lia.
  apply H. apply in_seq. lia.
Qed.

Lemma EncodeToString_hex (l : list Z) :
  Forall (fun b => 0 <= b < 256) l ->
  allChars isLowerHex (EncodeToString l) = true.
Proof.
  induction 1 as [| b l Hb Hl IH]; [reflexivity |].
  pose proof (hexOK_byte b Hb) as H. unfold hexOK in H.
  apply andb_true_iff in H as [H1 H2].
  cbn [EncodeToString hexByte allChars]. rewrite H1, H2, IH. reflexivity.
Qed.

Lemma copy_bytes (dst src : list Z) :
  Forall (fun b => 0 <= b < 256) dst ->
  Forall (fun b => 0 <= b < 256) src ->
  Forall (fun b => 0 <= b < 256) (copy dst src).
Proof.
  intros Hd; revert src; induction Hd as [| d dst Hd0 Hd IH]; intros src Hs.
  - destruct src; constructor.
  - destruct Hs as [| s src Hs0 Hs]; simpl.
    + constructor; assumption.
    + constructor; [assumption | apply IH; assumption].
Qed.

Lemma filled_bytes (n : Z) (data : list Z) :
  Forall (fun b => 0 <= b < 256) data ->
  Forall (fun b => 0 <= b < 256) (filled n data).
Proof.
  intros H. apply copy_bytes; [| assumption].
  apply Forall_forall. intros b Hb. apply repeat_spec in Hb. lia.
Qed.

Section FurtherNames.

(** X11.  For a size from 0 to 64 and a successful read of the random
    source, [GenerateRandomName] returns the prefix followed by exactly
    [size] characters, all lowercase hexadecimal digits, with no error,
    after that one read. *)
Theorem GenerateRandomName_shape :
  forall (W : Type) (h : Handler W) (w w1 : W) (prefix : string) (size : Z)
         (data : list Z),
    0 <= size <= 64 ->
    Forall (fun b => 0 <= b < 256) data ->
    h (ReadFull 32) w = ((data, None), w1) ->
    exists suffix,
      run h (GenerateRandomName prefix size) w
      = (Returned (prefix +++ suffix, None), w1,
         [Ev (ReadFull 32) (data, None)])
      /\ Z.of_nat (String.length suffix) = size
      /\ allChars isLowerHex suffix = true.
Proof.
  intros W h w w1 prefix size data Hsize Hdata Hread.
  exists (substring 0 (Z.to_nat size) (EncodeToString (filled 32 data))).
  assert (Hlen : slen (EncodeToString (filled 32 data)) = 64).
  { unfold slen. rewrite EncodeToString_length, filled_32_length. reflexivity. }
  split; [| split].
  - unfold GenerateRandomName. cbn [run]. rewrite Hread. cbn [isErr].
    rewrite Hlen.
    replace (size <? 0) with false by (symmetry; apply Z.ltb_ge; lia).
    replace (64 <? size) with false by (symmetry; apply Z.ltb_ge; lia).
    reflexivity.
  - rewrite substring_prefix_length; [lia |].
    unfold slen in Hlen. lia.
  - apply allChars_substring_prefix, EncodeToString_hex, filled_bytes, Hdata.
Qed.

(** X12.  With a size below 0 or above 64 the slice of the 64 hex digits
    is out of bounds: [GenerateRandomName] panics after a successful read
    (a failed read is reported first, with the empty name). *)
Theorem GenerateRandomName_out_of_bounds :
  forall (W : Type) (h : Handler W) (w w1 : W) (prefix : string) (size : Z)
         (data : list Z) (err : error),
    size < 0 \/ 64 < size ->
    h (ReadFull 32) w = ((data, err), w1) ->
    run h (GenerateRandomName prefix size) w
    = (match err with
       | Some msg => Returned ("", Some msg)
       | None => Panicked sliceBounds
       end, w1, [Ev (ReadFull 32) (data, err)]).
Proof.
  intros W h w w1 prefix size data err Hsize Hread.
  assert (Hlen : slen (EncodeToString (filled 32 data)) = 64).
  { unfold slen. rewrite EncodeToString_length, filled_32_length. reflexivity. }
  unfold GenerateRandomName. cbn [run]. rewrite Hread.
  destruct err as [msg |]; cbn [isErr]; [reflexivity |].
  rewrite Hlen.
  replace ((size <? 0) || (64 <? size)) with true; [reflexivity |].
  symmetry. apply orb_true_iff.
  destruct Hsize; [left; apply Z.ltb_lt | right; apply Z.ltb_lt]; lia.
Qed.

(** X13.  A port name made by [createOvsInternalPort] depends on the first
    three random bytes and the high half of the fourth only: two reads that
    agree on these yield the same name, whatever the other 28 bytes are. *)
Theorem port_name_uses_28_bits :
  forall (W : Type) (h h' : Handler W) (w w1 w' w1' : W)
         (prefix : string) (data data' : list Z),
    h (ReadFull 32) w = ((data, None), w1) ->
    h' (ReadFull 32) w' = ((data', None), w1') ->
    firstn 3 (filled 32 data) = firstn 3 (filled 32 data') ->
    Z.shiftr (nth 3 (filled 32 data) 0) 4
    = Z.shiftr (nth 3 (filled 32 data') 0) 4 ->
    fst (fst (run h (GenerateRandomName prefix 7) w))
    = fst (fst (run h' (GenerateRandomName prefix 7) w')).
Proof.
  intros W h h' w w1 w' w1' prefix data data' Hr Hr' H3 H4.
  unfold GenerateRandomName. cbn [run]. rewrite Hr, Hr'. cbn [isErr].
  rewrite !randomName_in_bounds. cbn [run fst].
  pose proof (filled_32_length data) as L.
  pose proof (filled_32_length data') as L'.
  destruct (filled 32 data) as [| a0 [| a1 [| a2 [| a3 rest]]]];
    try discriminate L.
  destruct (filled 32 data') as [| b0 [| b1 [| b2 [| b3 rest']]]];
    try discriminate L'.
  cbn [firstn nth] in H3, H4. injection H3 as -> -> ->.
  cbn [EncodeToString]. unfold hexByte. change (Z.to_nat 7) with 7%nat.
  cbn [substring]. rewrite H4. reflexivity.
Qed.

End FurtherNames.

(** ** Ports, hardware addresses, start-up *)

Lemma To4_shape (ip : GoNet.IP) : To4 ip = [] \/ len (To4 ip) = 4.
Proof.
  unfold To4. destruct (len ip =? IPv4len) eqn:E4.
  - right. apply Z.eqb_eq in E4. exact E4.
  - destruct ((len ip =? IPv6len) && isZeros (firstn 10 ip)
              && (nth 10 ip 0 =? 255) && (nth 11 ip 0 =? 255)) eqn:E6;
      [right | left; reflexivity].
    repeat (apply andb_true_iff in E6 as [E6 _]).
    apply Z.eqb_eq in E6. unfold len, IPv6len in *.
    rewrite length_skipn. lia.
Qed.

Section FurtherPorts.

(** X14.  [DeleteConnection] returns an error exactly when there is no
    session to the switch; with a session it makes one call, deleting the
    named port on the bridge, and returns nil.  It changes no package
    variable and calls nothing else.  [DeletePeer] of a peer is
    [DeleteConnection] of the port "vxlan-" followed by the peer
    address. *)
Theorem DeleteConnection_spec :
  forall (W : Type) (h : Handler W) (w : W) (portName : string) (g : Globals),
    (exists e w' tr,
        run h (DeleteConnection portName g) w = (Returned (e, g), w', tr)
        /\ (isErr e = true <-> ovs g = None)
        /\ map ev_call tr =
           match ovs g with
           | Some c => [deletePort c (Bridge.Name (OvsBridge g)) portName]
           | None => []
           end)
    /\ DeletePeer portName g = DeleteConnection ("vxlan-" +++ portName) g.
Proof.
  intros W h w portName g. split; [| reflexivity].
  unfold DeleteConnection, mbind, gets. simpl.
  destruct (ovs g) as [c |]; simpl.
  - destruct (h (deletePort c _ _) w) as [r1 w1].
    do 3 eexists; (split; [reflexivity |]);
      (split; [split; discriminate | reflexivity]).
  - do 3 eexists; (split; [reflexivity |]);
      (split; [split; reflexivity | reflexivity]).
Qed.

(** X15.  For every input, valid or not, [generateMacAddr] returns six
    bytes that start with 02 42.  An input that is not an IPv4 address
    gives 02:42:00:00:00:00, so all such inputs share one hardware
    address; the 4-byte and the 16-byte form of one IPv4 address give the
    same hardware address. *)
Theorem generateMacAddr_any_input :
  (forall ip,
      len (generateMacAddr ip) = 6
      /\ firstn 2 (generateMacAddr ip) = [2; 66]
      /\ (To4 ip = [] -> generateMacAddr ip = [2; 66; 0; 0; 0; 0]))
  /\ (forall a b c d,
        generateMacAddr (IPv4 a b c d) = generateMacAddr [a; b; c; d]).
Proof.
  split; [| reflexivity].
  intros ip. unfold generateMacAddr.
  destruct (To4_shape ip) as [E | E].
  - rewrite E. repeat split.
  - destruct (len4_inv _ E) as (a & b & c & d & ->). repeat split.
    intros H. discriminate H.
Qed.

End FurtherPorts.

Section FurtherConnections.

Variable ipv6String : GoNet.IP -> string.

Abbreviation IP_String := (GoNet.IP_String ipv6String).
Abbreviation IPNet_String := (GoNet.IPNet_String ipv6String).
Abbreviation AddConnection := (Ovs.AddConnection ipv6String).

(** X16.  What [AddConnection] returns with an error.  If the allocator
    was not reached, the record is empty.  If it was, the record is
    already filled in: it names the port that was created on the switch
    and carries the allocated address, its hardware address and the
    gateway, so a caller can still release them. *)
Theorem AddConnection_record_on_failure :
  forall (W : Type) (h : Handler W) (w w' : W) (nspid : Z) (g g' : Globals)
         (conn : OvsConnection.t) (msg : string) (tr : list Event),
    run h (AddConnection nspid g) w
    = (Returned (conn, Some msg, g'), w', tr) ->
    match allocated tr with
    | None => conn = OvsConnection.zero
    | Some ip =>
        OvsConnection.Ip conn = IP_String ip
        /\ OvsConnection.Mac conn = HardwareAddr_String (generateMacAddr ip)
        /\ OvsConnection.Gateway conn
           = IP_String (Bridge.IP (OvsBridge g))
        /\ exists c,
             ovs g = Some c
             /\ In (AddInternalPort c (Bridge.Name (OvsBridge g))
                      (OvsConnection.Name conn))
                   (map ev_call tr)
    end.
Proof.
  intros W h w w' nspid g g' conn msg tr H.
  eff_cases H; try discriminate H; injection H as <- <- <- <- <-;
    cbn [allocated ev_allocated]; try reflexivity;
    repeat split; eexists;
    (split; [first [eassumption | reflexivity] |]); simpl; auto 10.
Qed.

(** X17.  A successful [AddConnection] has made exactly these calls, in
    this order: read 32 random bytes, create the internal port on the
    bridge, sleep one second, request an address in [OvsBridge.Subnet],
    set the MTU to 1514, bring the port up, move it into the namespace
    of process [nspid], and then the six in-namespace steps.  Every call
    concerns the port named in the returned record. *)
Theorem AddConnection_success_calls :
  forall (W : Type) (h : Handler W) (w w' : W) (nspid : Z) (g g' : Globals)
         (conn : OvsConnection.t) (tr : list Event),
    run h (AddConnection nspid g) w = (Returned (conn, None, g'), w', tr) ->
    exists c sn,
      ovs g = Some c
      /\ Bridge.Subnet (OvsBridge g) = Some sn
      /\ map ev_call tr
         = attachCalls c (Bridge.Name (OvsBridge g)) (OvsConnection.Name conn)
             sn nspid (OvsConnection.Ip conn) (OvsConnection.Mac conn)
             (OvsConnection.Gateway conn).
Proof.
  intros W h w w' nspid g g' conn tr H.
  eff_cases H; try discriminate H. injection H as <- <- <- <-.
  do 2 eexists. repeat split; first [eassumption | reflexivity].
Qed.

End FurtherConnections.

Section FurtherStart.

(** X18.  [init] stores whatever session [ovs_connect] returned, nil
    included, and goes on: it never fails and leaves [OvsBridge] alone.
    When the stored session is nil, [AddPeer], [DeletePeer] and
    [DeleteConnection] afterwards all return "OVS not connected" without
    calling anything. *)
Theorem init_then_no_session :
  forall (W : Type) (h : Handler W) (w : W) (g : Globals),
    exists c err w1 w' tr,
      h ovs_connect w = ((c, err), w1)
      /\ run h (init g) w = (Returned (tt, set_ovs c g), w', tr)
      /\ (c = None ->
          forall (h' : Handler W) (w2 : W) (name : string),
            let g' := set_ovs c g in
            let refused := (Returned (Some "OVS not connected", g'), w2, []) in
            run h' (AddPeer name g') w2 = refused
            /\ run h' (DeletePeer name g') w2 = refused
            /\ run h' (DeleteConnection name g') w2 = refused).
Proof.
  intros W h w g.
  destruct (h ovs_connect w) as [[c err] w1] eqn:Hc.
  exists c, err, w1.
  destruct (run h (init g) w) as [[o w'] tr] eqn:H.
  unfold init in H.
  cbv beta iota zeta delta [mbind gets modify lift perform ret call] in H.
  cbn [bind run] in H. rewrite Hc in H. cbn [bind run] in H.
  destruct err as [msg |]; cbn [isErr bind run] in H.
  - destruct (h (Println _) w1) as [[] w2] eqn:Hp.
    injection H as <- <- <-. do 2 eexists. split; [reflexivity |].
    split; [reflexivity |]. intros -> h' w2' name. repeat split.
  - injection H as <- <- <-. do 2 eexists. split; [reflexivity |].
    split; [reflexivity |]. intros -> h' w2' name. repeat split.
Qed.

End FurtherStart.

(** ** The subnet suffix of a connection *)

Lemma append_length (a b : string) :
  String.length (a +++ b) = (String.length a + String.length b)%nat.
Proof. induction a as [| c a IH]; simpl; [reflexivity | now rewrite IH]. Qed.

Lemma append_assoc (a b c : string) : (a +++ b) +++ c = a +++ (b +++ c).
Proof. induction a as [| x a IH]; simpl; [reflexivity | now rewrite IH]. Qed.

Lemma substring_skip (a b : string) (n : nat) :
  substring (String.length a) n (a +++ b) = substring 0 n b.
Proof. induction a as [| c a IH]; simpl; [reflexivity | exact IH]. Qed.

Lemma substring_whole (s : string) : substring 0 (String.length s) s = s.
Proof. induction s as [| c s IH]; simpl; [reflexivity | now rewrite IH]. Qed.

(** A non-empty string ends in a character, which has every property all
    of its characters have. *)
Lemma last_char (s : string) :
  s <> "" ->
  exists s' c,
    s = s' +++ String c ""
    /\ forall p, allChars p s = true -> p c = true.
Proof.
  induction s as [| x s IH]; [congruence |]. intros _.
  destruct s as [| y s].
  - exists "", x. split; [reflexivity |].
    intros p H. simpl in H. apply andb_true_iff in H as [H _]. exact H.
  - destruct IH as (s' & c & E & Hc); [discriminate |].
    exists (String x s'), c. split; [simpl; rewrite <- E; reflexivity |].
    intros p H. simpl in H. apply andb_true_iff in H as [_ H].
    apply Hc. exact H.
Qed.

Lemma lastOf_snoc (s : string) (c : ascii) :
  lastOf (s +++ String c "") = Some c.
Proof.
  induction s as [| x s IH]; [reflexivity |].
  simpl. rewrite IH. destruct (s +++ String c ""); [discriminate IH | reflexivity].
Qed.

Lemma lastDigitOK_bytes :
  forallb (fun n => lastDigitOK (Z.of_nat n)) (seq 0 256) = true.
Proof. vm_compute. reflexivity. Qed.

(** The decimal text of a byte ends in its last decimal digit. *)
Lemma lastOf_itod (b : Z) :
  0 <= b < 256 -> lastOf (itod b) = Some (lastDigit b).
Proof.
  intros Hb. pose proof lastDigitOK_bytes as H. rewrite forallb_forall in H.
  specialize (H (Z.to_nat b)). rewrite Z2Nat.id in H by lia.
  assert (Hin : In (Z.to_nat b) (seq 0 256)) by (apply in_seq; lia).
  apply H in Hin. unfold lastDigitOK in Hin.
  destruct (lastOf (itod b)) as [c |]; [| discriminate Hin].
  apply Ascii.eqb_eq in Hin. rewrite Hin. reflexivity.
Qed.

Lemma prefix_digits :
  forallb (fun n => Nat.eqb (String.length (itod (Z.of_nat n)))
                      (if Nat.ltb n 10 then 1 else 2)) (seq 0 33) = true.
Proof. vm_compute. reflexivity. Qed.

Lemma prefix_length_text (ones : Z) :
  0 <= ones <= 32 ->
  String.length (itod ones) = if ones <? 10 then 1%nat else 2%nat.
Proof.
  intros Ho. pose proof prefix_digits as H. rewrite forallb_forall in H.
  specialize (H (Z.to_nat ones)). rewrite Z2Nat.id in H by lia.
  assert (Hin : In (Z.to_nat ones) (seq 0 33)) by (apply in_seq; lia).
  apply H in Hin. apply Nat.eqb_eq in Hin. rewrite Hin.
  destruct (Nat.ltb_spec (Z.to_nat ones) 10), (Z.ltb_spec ones 10);
    try reflexivity; lia.
Qed.

Section FurtherSubnet.

Variable ipv6String : GoNet.IP -> string.

Abbreviation IP_String := (GoNet.IP_String ipv6String).
Abbreviation IPNet_String := (GoNet.IPNet_String ipv6String).
Abbreviation AddConnection := (Ovs.AddConnection ipv6String).

(** The last three characters of the text of an IPv4 network. *)
Lemma subnet_last_three (sn : IPNet) (b0 b1 b2 b3 ones : Z) :
  ifaceAddrIPv4 sn b0 b1 b2 b3 ones ->
  let text := IPNet_String sn in
  3 <= slen text
  /\ (10 <= ones ->
      substring (Z.to_nat (slen text - 3)) 3 text = "/" +++ itod ones)
  /\ (ones < 10 ->
      substring (Z.to_nat (slen text - 3)) 3 text
      = String (lastDigit b3) ("/" +++ itod ones)).
Proof.
  intros Ha text. subst text.
  rewrite (IPNet_String_IPv4 ipv6String _ _ _ _ _ _ Ha).
  destruct Ha as (_ & Hb & Ho & _).
  assert (Hb3 : 0 <= b3 < 256) by (rewrite Forall_forall in Hb; apply Hb; simpl; auto).
  pose proof (prefix_length_text ones Ho) as Hl.
  (* the dotted text ends in the last digit of the last byte *)
  destruct (itod_byte b3 Hb3) as (_ & Hdig & Hne).
  destruct (last_char (itod b3) Hne) as (s' & c & E & Hc).
  assert (Hcd : c = lastDigit b3).
  { pose proof (lastOf_itod b3 Hb3) as Hlast.
    rewrite E, lastOf_snoc in Hlast. injection Hlast as ->. reflexivity. }
  set (front := itod b0 +++ "." +++ itod b1 +++ "." +++ itod b2 +++ "." +++ s').
  assert (Hd : dotted b0 b1 b2 b3 = front +++ String c "").
  { unfold dotted, front. rewrite E. rewrite !append_assoc. reflexivity. }
  rewrite Hd. rewrite append_assoc. cbn [String.append].
  unfold slen. rewrite !append_length. cbn [String.length].
  destruct (Z.ltb_spec ones 10) as [Hlt | Hge].
  - (* one digit *)
    destruct (itod ones) as [| d [| d2 rest]]; try discriminate Hl.
    cbn [String.length].
    replace (Z.to_nat (Z.of_nat (String.length front + 3) - 3))
      with (String.length front) by lia.
    split; [lia |]. split; [lia |]. intros _.
    rewrite <- Hcd. rewrite substring_skip. reflexivity.
  - (* two digits *)
    destruct (itod ones) as [| d [| d2 [| d3 rest]]]; try discriminate Hl.
    cbn [String.length].
    replace (Z.to_nat (Z.of_nat (String.length front + 4) - 3))
      with (String.length (front +++ String c ""))
      by (rewrite append_length; cbn [String.length]; lia).
    split; [lia |]. split; [| lia]. intros _.
    replace (front +++ String c (String "/" (String d (String d2 ""))))
      with ((front +++ String c "") +++ String "/" (String d (String d2 "")))
      by (rewrite append_assoc; reflexivity).
    rewrite substring_skip. reflexivity.
Qed.

(** X19.  Once [OvsBridge.Subnet] is an IPv4 network, [AddConnection]
    never panics: every run returns. *)
Theorem AddConnection_returns :
  forall (W : Type) (h : Handler W) (w w' : W) (nspid : Z) (g : Globals)
         (sn : IPNet) (b0 b1 b2 b3 ones : Z)
         (o : Outcome (OvsConnection.t * error * Globals)) (tr : list Event),
    Bridge.Subnet (OvsBridge g) = Some sn ->
    ifaceAddrIPv4 sn b0 b1 b2 b3 ones ->
    run h (AddConnection nspid g) w = (o, w', tr) ->
    exists conn err, o = Returned (conn, err, g).
Proof.
  intros W h w w' nspid g sn b0 b1 b2 b3 ones o tr Hsn Ha H.
  destruct (subnet_last_three sn _ _ _ _ _ Ha) as (Hlen & _).
  eff_cases H; try congruence; injection H as <- <- <-;
    try (do 2 eexists; reflexivity);
    exfalso; injection Hsn as ->;
    match goal with
    | Hb : (slen (IPNet_String sn) <? 3) = true |- _ =>
        apply Z.ltb_lt in Hb; lia
    end.
Qed.

(** X20.  The subnet field of the record is the last three characters of
    the network's text.  For an IPv4 network with a prefix length of 10 or
    more that is "/" and the prefix length; with a prefix length below
    10 it is the last decimal digit of the last byte of the network
    address, then "/" and the one-digit prefix length. *)
Theorem AddConnection_subnet_field :
  forall (W : Type) (h : Handler W) (w w' : W) (nspid : Z) (g g' : Globals)
         (sn : IPNet) (b0 b1 b2 b3 ones : Z)
         (conn : OvsConnection.t) (err : error) (tr : list Event),
    Bridge.Subnet (OvsBridge g) = Some sn ->
    ifaceAddrIPv4 sn b0 b1 b2 b3 ones ->
    run h (AddConnection nspid g) w = (Returned (conn, err, g'), w', tr) ->
    allocated tr <> None ->
    (10 <= ones -> OvsConnection.Subnet conn = "/" +++ itod ones)
    /\ (ones < 10 ->
        OvsConnection.Subnet conn
        = String (lastDigit b3) ("/" +++ itod ones)).
Proof.
  intros W h w w' nspid g g' sn b0 b1 b2 b3 ones conn err tr Hsn Ha H Hal.
  destruct (subnet_last_three sn _ _ _ _ _ Ha) as (_ & H10 & H9).
  eff_cases H; try discriminate H; injection H as <- <- <- <- <-;
    try (exfalso; apply Hal; reflexivity);
    injection Hsn as ->;
    cbn [OvsConnection.Subnet]; split; assumption.
Qed.

End FurtherSubnet.

(* ================================================================== *)
(** * The further properties at concrete inputs                        *)
(* ================================================================== *)

Lemma getAvailableGwAddress_malformed_witness :
  Ovs.getAvailableGwAddress Host.noParseIPv6 "10.1.42.1"
  = Ret ("", Some "invalid CIDR address: 10.1.42.1").
Proof.
  apply (getAvailableGwAddress_malformed Host.noParseIPv6 "10.1.42.1").
  - discriminate.
  - reflexivity.
Defined.

Lemma getAvailableGwAddress_selects_candidate_witness :
  In "10.0.43.1/24" gatewayAddrs /\ "" = "".
Proof.
  apply (getAvailableGwAddress_selects_candidate Host.noParseIPv6
           Host.World Host.host Host.sixBusy Host.sixBusy "" "10.0.43.1/24"
           (snd (run Host.host
                   (Ovs.getAvailableGwAddress Host.noParseIPv6 "")
                   Host.sixBusy))).
  reflexivity.
Defined.

Lemma CreateBridge_explicit_never_works_witness :
  run Host.host
    (Ovs.CreateBridge Host.noParseIPv6 Host.noIPv6String "192.168.0.1/24"
       Host.connected) Host.fresh
  = (Returned
       (Some "Could not find a free IP address range for 'docker0-ovs'",
        Host.connected), Host.fresh, []).
Proof.
  apply (CreateBridge_explicit_never_works Host.noParseIPv6 Host.noIPv6String
           Host.World Host.host Host.fresh "192.168.0.1/24" Host.connected).
  discriminate.
Defined.

(** Assigning the address fails, and the call succeeds all the same. *)
Lemma CreateBridge_ignores_address_error_witness :
  let r := run Host.host
             (Ovs.CreateBridge Host.noParseIPv6 Host.noIPv6String ""
                Host.connected) Scenario.noAddIp in
  fst (fst r) = Returned (None, Host.bridged)
  /\ In (Ev (NetworkLinkAddIp (Some (mkInterface 7 "docker0-ovs"))
               (IPv4 10 1 42 1) (mkIPNet [10; 1; 0; 0] [255; 255; 0; 0]))
            (Some "operation not permitted")) (snd r)
  /\ match afterAddIp (snd r) with
     | Some (iface, rest) =>
         exists r0 post, rest = Ev (NetworkLinkUp iface) r0 :: post
     | None => existsb (fun e => isAddIp (ev_call e)) (snd r) = false
     end.
Proof.
  intros r. split; [reflexivity |]. split; [simpl; auto 10 |].
  apply (CreateBridge_ignores_address_error Host.noParseIPv6
           Host.noIPv6String Host.World Host.host Scenario.noAddIp
           (snd (fst r)) "" Host.connected (fst (fst r)) (snd r)).
  reflexivity.
Defined.

(** Bringing the bridge up fails: the call fails, the address is
    recorded. *)
Lemma CreateBridge_recorded_state_witness :
  exists w' tr,
    run Host.host
      (Ovs.CreateBridge Host.noParseIPv6 Host.noIPv6String ""
         Host.connected) Scenario.noLinkUp
    = (Returned
         (Some "Unable to start network bridge: operation not permitted",
          Host.bridged), w', tr)
    /\ ((Host.bridged = Host.connected
         /\ existsb (fun e => isAddIp (ev_call e)) tr = false)
        \/ (exists iface ip n r,
              In (Ev (NetworkLinkAddIp iface ip n) r) tr
              /\ Host.bridged = set_resolved ip n Host.connected)).
Proof.
  destruct (run Host.host
              (Ovs.CreateBridge Host.noParseIPv6 Host.noIPv6String ""
                 Host.connected) Scenario.noLinkUp) as [[o w'] tr] eqn:Hrun.
  vm_compute in Hrun. injection Hrun as <- <- <-.
  do 2 eexists. split; [reflexivity |].
  exact (CreateBridge_recorded_state Host.noParseIPv6 Host.noIPv6String
           Host.World Host.host Scenario.noLinkUp _ "" Host.connected
           Host.bridged _ _ eq_refl).
Defined.

Lemma CreateBridge_existing_not_created_witness :
  existsb (fun ev => createsBridge (ev_call ev))
    (snd (run Host.host
            (Ovs.CreateBridge Host.noParseIPv6 Host.noIPv6String ""
               Host.connected) Host.withBridge))
  = false.
Proof.
  set (r := run Host.host
              (Ovs.CreateBridge Host.noParseIPv6 Host.noIPv6String ""
                 Host.connected) Host.withBridge).
  apply (CreateBridge_existing_not_created Host.noParseIPv6
           Host.noIPv6String Host.World Host.host Host.withBridge
           (snd (fst r)) "" Host.connected (fst (fst r)) (snd r)
           (Some (mkInterface 7 "docker0-ovs")) None).
  - reflexivity.
  - reflexivity.
  - left. discriminate.
Defined.

Lemma CreateBridge_no_interface_no_session_witness :
  run Host.host
    (Ovs.CreateBridge Host.noParseIPv6 Host.noIPv6String "" globals0)
    Host.fresh
  = (Returned (Some "OVS not connected", globals0), Host.fresh,
     [ Ev (CheckRouteOverlaps (mkIPNet [10; 1; 0; 0] [255; 255; 0; 0])) None;
       Ev (InterfaceByName "docker0-ovs")
          (None, Some "no such network interface") ]).
Proof.
  apply (CreateBridge_no_interface_no_session Host.noParseIPv6
           Host.noIPv6String Host.World Host.host Host.fresh Host.fresh
           Host.fresh "" "10.1.42.1/16" globals0
           [Ev (CheckRouteOverlaps (mkIPNet [10; 1; 0; 0] [255; 255; 0; 0]))
               None]
           "no such network interface").
  - reflexivity.
  - reflexivity.
  - reflexivity.
Defined.

Lemma CreateBridge_new_interface_gets_candidate_witness :
  exists res w' tr,
    run Host.host
      (Ovs.CreateBridge Host.noParseIPv6 Host.noIPv6String ""
         Host.connected) Host.fresh
    = (Returned
         (res,
          set_resolved (IPv4 10 1 42 1)
            (mkIPNet [10; 1; 0; 0] [255; 255; 0; 0]) Host.connected),
       w', tr).
Proof.
  destruct (CreateBridge_new_interface_gets_candidate Host.noParseIPv6
              Host.noIPv6String Host.World Host.host
              Host.fresh Host.fresh Host.fresh
              (Host.created "docker0-ovs" Host.fresh)
              (Host.created "docker0-ovs" Host.fresh)
              (Host.created "docker0-ovs" Host.fresh)
              "" "10.1.42.1/16" Host.connected
              [Ev (CheckRouteOverlaps (mkIPNet [10; 1; 0; 0] [255; 255; 0; 0]))
                  None]
              "no such network interface" 1
              (Some (mkInterface 7 "docker0-ovs"))
              eq_refl eq_refl eq_refl eq_refl eq_refl eq_refl)
    as (ip & n & res & w' & r & post & Hp & _ & Hrun).
  vm_compute in Hp. injection Hp as <- <-.
  exists res, w'. eexists. exact Hrun.
Defined.

Lemma setupIPTables_without_iptables_witness :
  let r := run Scenario.noIptables (setupIPTables "docker0-ovs" "10.1.42.1")
             Host.fresh in
  fst (fst r)
  = Returned (Some "Unable to enable network bridge NAT: iptables not found")
  /\ firewallRules (snd r) = [].
Proof.
  intros r. split; [| reflexivity].
  apply (setupIPTables_without_iptables Host.World Scenario.noIptables
           Host.fresh (snd (fst r)) "docker0-ovs" "10.1.42.1"
           (fst (fst r)) (snd r)).
  - reflexivity.
  - reflexivity.
Defined.

Lemma GenerateRandomName_shape_witness :
  exists suffix,
    run Host.host (GenerateRandomName "ovs" 7) Host.fresh
    = (Returned ("ovs" +++ suffix, None), Host.fresh,
       [Ev (ReadFull 32) (repeat 171 32, None)])
    /\ Z.of_nat (String.length suffix) = 7
    /\ allChars isLowerHex suffix = true.
Proof.
  apply (GenerateRandomName_shape Host.World Host.host Host.fresh Host.fresh
           "ovs" 7 (repeat 171 32)).
  - lia.
  - apply Forall_forall. intros b Hb. apply repeat_spec in Hb. lia.
  - reflexivity.
Defined.

Lemma GenerateRandomName_out_of_bounds_witness :
  run Host.host (GenerateRandomName "ovs" 65) Host.fresh
  = (Panicked sliceBounds, Host.fresh,
     [Ev (ReadFull 32) (repeat 171 32, None)]).
Proof.
  apply (GenerateRandomName_out_of_bounds Host.World Host.host Host.fresh
           Host.fresh "ovs" 65 (repeat 171 32) None).
  - right. lia.
  - reflexivity.
Defined.

(** Two reads that differ in 28 of their 32 bytes, and one name. *)
Lemma port_name_uses_28_bits_witness :
  fst (Host.host (ReadFull 32) Host.fresh)
  <> fst (Scenario.otherRandom (ReadFull 32) Host.fresh)
  /\ fst (fst (run Host.host (GenerateRandomName "ovs" 7) Host.fresh))
     = fst (fst (run Scenario.otherRandom (GenerateRandomName "ovs" 7)
                   Host.fresh)).
Proof.
  split; [discriminate |].
  apply (port_name_uses_28_bits Host.World Host.host Scenario.otherRandom
           Host.fresh Host.fresh Host.fresh Host.fresh "ovs"
           (repeat 171 32) ([171; 171; 171; 160] ++ repeat 7 28)).
  - reflexivity.
  - reflexivity.
  - reflexivity.
  - reflexivity.
Defined.

(** The nil address and an IPv6 address get the same hardware address. *)
Lemma generateMacAddr_any_input_witness :
  To4 [] = []
  /\ To4 [32; 1; 13; 184; 0; 0; 0; 0; 0; 0; 0; 0; 0; 0; 0; 1] = []
  /\ generateMacAddr [] = [2; 66; 0; 0; 0; 0]
  /\ generateMacAddr [32; 1; 13; 184; 0; 0; 0; 0; 0; 0; 0; 0; 0; 0; 0; 1]
     = [2; 66; 0; 0; 0; 0].
Proof.
  split; [reflexivity |]. split; [reflexivity |]. split.
  - apply (proj1 generateMacAddr_any_input []). reflexivity.
  - apply (proj1 generateMacAddr_any_input
             [32; 1; 13; 184; 0; 0; 0; 0; 0; 0; 0; 0; 0; 0; 0; 1]).
    reflexivity.
Defined.

(** Setting the MTU fails: the record still names the port and the
    address. *)
Lemma AddConnection_record_on_failure_witness :
  let r := run Host.host
             (Ovs.AddConnection Host.noIPv6String 4242 Host.bridged)
             Scenario.noMtu in
  fst (fst r)
  = Returned
      (OvsConnection.mk "ovsabababa" "10.1.0.2" "/16" "02:42:0a:01:00:02"
         "10.1.42.1", Some "operation not permitted", Host.bridged)
  /\ allocated (snd r) = Some [10; 1; 0; 2]
  /\ match allocated (snd r) with
     | None => True
     | Some ip =>
         exists c,
           ovs Host.bridged = Some c
           /\ In (AddInternalPort c "docker0-ovs" "ovsabababa")
                (map ev_call (snd r))
     end.
Proof.
  intros r. split; [reflexivity |]. split; [reflexivity |].
  pose proof (AddConnection_record_on_failure Host.noIPv6String
                Host.World Host.host Scenario.noMtu (snd (fst r)) 4242
                Host.bridged Host.bridged
                (OvsConnection.mk "ovsabababa" "10.1.0.2" "/16"
                   "02:42:0a:01:00:02" "10.1.42.1")
                "operation not permitted" (snd r) eq_refl) as H.
  change (allocated (snd r)) with (Some [10; 1; 0; 2]) in H |- *.
  destruct H as (_ & _ & _ & c & Hc & Hin). exists c. split; assumption.
Defined.

Lemma AddConnection_success_calls_witness :
  exists conn tr,
    fst (run Host.host
           (Ovs.AddConnection Host.noIPv6String 4242 Host.bridged) Host.fresh)
    = (Returned (conn, None, Host.bridged),
       Host.mkWorld None [] (fun _ => false) 3)
    /\ snd (run Host.host
              (Ovs.AddConnection Host.noIPv6String 4242 Host.bridged)
              Host.fresh) = tr
    /\ map ev_call tr
       = attachCalls 1 "docker0-ovs" "ovsabababa"
           (mkIPNet [10; 1; 0; 0] [255; 255; 0; 0]) 4242
           "10.1.0.2" "02:42:0a:01:00:02" "10.1.42.1".
Proof.
  destruct (run Host.host
              (Ovs.AddConnection Host.noIPv6String 4242 Host.bridged)
              Host.fresh) as [[o w'] tr] eqn:Hrun.
  vm_compute in Hrun. injection Hrun as <- <- <-.
  do 2 eexists. split; [reflexivity |]. split; [reflexivity |].
  destruct (AddConnection_success_calls Host.noIPv6String
              Host.World Host.host Host.fresh _ 4242 Host.bridged _ _ _
              eq_refl) as (c & sn & Hc & Hsn & Hcalls).
  vm_compute in Hc, Hsn. injection Hc as <-. injection Hsn as <-.
  exact Hcalls.
Defined.

(** No switch: [init] stores nil, and removing a peer is refused. *)
Lemma init_then_no_session_witness :
  fst (fst (run Scenario.noSwitch (init globals0) Host.fresh))
  = Returned (tt, globals0)
  /\ run Host.host (DeletePeer "10.0.0.7" globals0) Host.fresh
     = (Returned (Some "OVS not connected", globals0), Host.fresh, []).
Proof.
  split; [reflexivity |].
  destruct (init_then_no_session Host.World Scenario.noSwitch Host.fresh
              globals0) as (c & err & w1 & w' & tr & Hc & _ & Hno).
  vm_compute in Hc. injection Hc as <- _ _.
  exact (proj1 (proj2 (Hno eq_refl Host.host Host.fresh "10.0.0.7"))).
Defined.

Lemma AddConnection_returns_witness :
  exists conn err,
    fst (fst (run Host.host
                (Ovs.AddConnection Host.noIPv6String 4242 Host.bridged)
                Scenario.noMtu))
    = Returned (conn, err, Host.bridged).
Proof.
  set (r := run Host.host
              (Ovs.AddConnection Host.noIPv6String 4242 Host.bridged)
              Scenario.noMtu).
  apply (AddConnection_returns Host.noIPv6String Host.World Host.host
           Scenario.noMtu (snd (fst r)) 4242 Host.bridged
           (mkIPNet [10; 1; 0; 0] [255; 255; 0; 0]) 10 1 0 0 16
           (fst (fst r)) (snd r)).
  - reflexivity.
  - split; [reflexivity |]. split; [repeat constructor; lia |].
    split; [lia | reflexivity].
  - reflexivity.
Defined.

(** On 10.0.0.0/8 the subnet field is "0/8"; on 192.168.7.0/24 it is
    "/24". *)
Lemma AddConnection_subnet_field_witness :
  "0/8" = String (lastDigit 0) ("/" +++ itod 8)
  /\ "/24" = "/" +++ itod 24.
Proof.
  set (r8 := run Host.host
               (Ovs.AddConnection Host.noIPv6String 4242 Scenario.slash8)
               Host.fresh).
  set (r24 := run Host.host
                (Ovs.AddConnection Host.noIPv6String 4242 Scenario.slash24)
                Host.fresh).
  assert (A8 : ifaceAddrIPv4 (mkIPNet [10; 0; 0; 0] [255; 0; 0; 0]) 10 0 0 0 8).
  { split; [reflexivity |]. split; [repeat constructor; lia |].
    split; [lia | reflexivity]. }
  assert (A24 : ifaceAddrIPv4 (mkIPNet [192; 168; 7; 0] [255; 255; 255; 0])
                  192 168 7 0 24).
  { split; [reflexivity |]. split; [repeat constructor; lia |].
    split; [lia | reflexivity]. }
  split.
  - apply (proj2 (AddConnection_subnet_field Host.noIPv6String
                    Host.World Host.host Host.fresh (snd (fst r8)) 4242
                    Scenario.slash8 Scenario.slash8
                    (mkIPNet [10; 0; 0; 0] [255; 0; 0; 0]) 10 0 0 0 8
                    (OvsConnection.mk "ovsabababa" "10.0.0.2" "0/8"
                       "02:42:0a:00:00:02" "10.0.0.1")
                    None (snd r8) eq_refl A8 eq_refl
                    ltac:(discriminate))).
    lia.
  - apply (proj1 (AddConnection_subnet_field Host.noIPv6String
                    Host.World Host.host Host.fresh (snd (fst r24)) 4242
                    Scenario.slash24 Scenario.slash24
                    (mkIPNet [192; 168; 7; 0] [255; 255; 255; 0])
                    192 168 7 0 24
                    (OvsConnection.mk "ovsabababa" "192.168.7.2" "/24"
                       "02:42:c0:a8:07:02" "192.168.7.1")
                    None (snd r24) eq_refl A24 eq_refl
                    ltac:(discriminate))).
    lia.
Defined.
